(** * testsupport/wait/awaitility.go: the Awaitility waiter

    A shallow embedding of the [wait] package of toolchain-e2e: the
    [Awaitility] struct, its retry options, the baseline/delta metric waits,
    the ToolchainCluster waits and their criteria, and the other polling
    operations, followed by the properties of that code.

    Conventions of the embedding.
    - [time.Duration] is an [int64] count of nanoseconds: a [Z] with the
      wrap-around of Go's arithmetic written out.
    - [float64] is the IEEE-754 binary64 format, as specified by the
      Standard Library's [spec_float].
    - A Go [map] is a reference: the maps live in a heap and a struct field
      holds their address ([None] for the nil map).
    - A test body runs in the monad [Test]: it threads the state of the test
      (remote requests answered so far, the record of the polls, the heap,
      the registered cleanups) and ends normally, by [t.FailNow] (which
      [t.Fatal] and the [require] assertions call) or by a panic.
    - What the code logs ([t.Log], [t.Logf]) and the texts of its failure
      messages are not part of the model. *)

From Stdlib Require Import ZArith String List Bool Lia Permutation.
From Stdlib Require Import Floats.SpecFloat.
From stdpp Require Import gmap strings list fin_maps.

Local Open Scope Z_scope.
Local Open Scope string_scope.

(** ** Numbers *)

(** [time.Duration] *)
Module Duration.
Definition t := Z.

(** the value an [int64] computation keeps of the integer [z] *)
Definition wrap (z : Z) : Z := (z + 2 ^ 63) mod 2 ^ 64 - 2 ^ 63.

Definition in_range (z : Z) : Prop := - 2 ^ 63 <= z < 2 ^ 63.

(** [k * d] on [int64] *)
Definition mul (k d : t) : t := wrap (k * d).

Definition Nanosecond : t := 1.
Definition Microsecond : t := 1000 * Nanosecond.
Definition Millisecond : t := 1000 * Microsecond.
Definition Second : t := 1000 * Millisecond.
End Duration.

(** [float64] *)
Module Float64.
Definition t := spec_float.

Definition prec : Z := 53.
Definition emax : Z := 1024.

Definition zero : t := S754_zero false.

(** the [float64] nearest to an integer *)
Definition of_Z (z : Z) : t := binary_normalize prec emax z 0 false.

(** [x + y], [x == y], [x <= y], [x >= y] of Go on [float64] *)
Definition add (x y : t) : t := SFadd prec emax x y.
Definition eqb (x y : t) : bool := SFeqb x y.
Definition leb (x y : t) : bool := SFleb x y.
Definition geb (x y : t) : bool := SFleb y x.
End Float64.

(** ** Constants of the package *)

Definition DefaultRetryInterval : Duration.t := Duration.Millisecond * 100.
Definition DefaultTimeout : Duration.t := Duration.Second * 120.
Definition ToolchainClusterConditionTimeout : Duration.t := 180 * Duration.Second.

(** ** Errors *)

(** The [error] values the code tells apart: the poll's own timeout, an API
    status error that [apierrors.IsNotFound] recognises, a [*url.Error] whose
    [Timeout()] holds, and every other error. *)
Inductive error : Type :=
| ErrWaitTimeout
| ErrNotFound (msg : string)
| ErrURLTimeout (msg : string)
| ErrOther (msg : string).

Definition IsNotFound (err : error) : bool :=
  match err with ErrNotFound _ => true | _ => false end.

(** [err == nil] *)
Definition isNil (err : option error) : bool :=
  match err with None => true | Some _ => false end.

(** [errors.As(err, &urlError) && urlError.Timeout()] *)
Definition IsURLTimeout (err : option error) : bool :=
  match err with Some (ErrURLTimeout _) => true | _ => false end.

(** ** The state of a running test and the monad of test bodies *)

Definition loc := positive.

Record State := {
  (** requests the remote system has answered so far *)
  clock : nat;
  (** [(interval, timeout)] of every call of [wait.Poll], oldest first *)
  polls : list (Duration.t * Duration.t);
  (** the Go maps that hold baseline values *)
  heap : gmap loc (gmap string Float64.t);
  (** namespaces whose deletion [t.Cleanup] has registered *)
  cleanups : list string
}.

Inductive Outcome (A : Type) : Type :=
| Done (a : A)
| FailNow
| Panic.
Arguments Done {A} a.
Arguments FailNow {A}.
Arguments Panic {A}.

Definition Test (A : Type) : Type := State -> Outcome A * State.

Definition ret {A} (a : A) : Test A := fun s => (Done a, s).

Definition bind {A B} (m : Test A) (k : A -> Test B) : Test B :=
  fun s =>
    match m s with
    | (Done a, s') => k a s'
    | (FailNow, s') => (FailNow, s')
    | (Panic, s') => (Panic, s')
    end.

Notation "x <- c1 ;; c2" := (bind c1 (fun x => c2))
  (at level 100, c1 at next level, right associativity).
Notation "c1 ;; c2" := (bind c1 (fun _ => c2))
  (at level 100, right associativity).

(** [t.FailNow()], reached through [t.Fatal] and a failed [require] *)
Definition failNow {A} : Test A := fun s => (FailNow, s).

Definition panic {A} : Test A := fun s => (Panic, s).

(** [require.NoError(t, err)] *)
Definition require_NoError (err : option error) : Test unit :=
  match err with None => ret tt | Some _ => failNow end.

(** [require.True(t, b)] *)
Definition require_True (b : bool) : Test unit :=
  if b then ret tt else failNow.

(** One request to the remote system: the answer may depend on everything
    asked before, here on the number of earlier requests. *)
Definition request {A} (answer : nat -> A) : Test A :=
  fun s => (Done (answer (clock s)),
            {| clock := S (clock s); polls := polls s;
               heap := heap s; cleanups := cleanups s |}).

Definition recordPoll (interval timeout : Duration.t) : Test unit :=
  fun s => (Done tt,
            {| clock := clock s; polls := polls s ++ [(interval, timeout)];
               heap := heap s; cleanups := cleanups s |}).

(** [t.Cleanup(...)] of the deletion of namespace [name] *)
Definition registerCleanup (name : string) : Test unit :=
  fun s => (Done tt,
            {| clock := clock s; polls := polls s;
               heap := heap s; cleanups := cleanups s ++ [name] |}).

(** ** Go maps of baseline values *)

(** [m[k]]: the zero value when the key is absent or the map is nil *)
Definition mapaccess (h : gmap loc (gmap string Float64.t)) (m : option loc)
    (k : string) : Float64.t :=
  match m with
  | None => Float64.zero
  | Some l => default Float64.zero (h !! l ≫= fun kv => kv !! k)
  end.

(** [m[k] = v]: updates the map [m] refers to; a nil map panics *)
Definition mapassign (h : gmap loc (gmap string Float64.t)) (m : option loc)
    (k : string) (v : Float64.t) : option (gmap loc (gmap string Float64.t)) :=
  match m with
  | None => None
  | Some l => Some (<[l := <[k := v]> (default ∅ (h !! l))]> h)
  end.

(** [a.baselineValues[key]] as a step of a test *)
Definition readBaseline (m : option loc) (k : string) : Test Float64.t :=
  fun s => (Done (mapaccess (heap s) m k), s).

(** ** The objects of the remote system

    Of each kind of object, the fields the package reads or writes. *)

Module ToolchainClusterCondition.
Record t := {
  Type_ : string;    (* ToolchainClusterConditionType *)
  Status : string    (* corev1.ConditionStatus *)
}.
End ToolchainClusterCondition.

Module ToolchainCluster.
Record t := {
  Name : string;
  Labels : gmap string string;
  Spec : string;
  Status_Conditions : list ToolchainClusterCondition.t
}.
(** [toolchainv1alpha1.ToolchainCluster{}] *)
Definition empty : t :=
  {| Name := ""; Labels := ∅; Spec := ""; Status_Conditions := [] |}.
End ToolchainCluster.

Module Service.
Record t := { Namespace : string; Name : string; Kind : string }.
Definition empty : t := {| Namespace := ""; Name := ""; Kind := "" |}.
End Service.

Module Route.
Record t := {
  Namespace : string;
  Name : string;
  Spec_TLS : bool;                 (* [Spec.TLS != nil] *)
  Status_Ingress : list string     (* the [Host] of each ingress *)
}.
Definition empty : t :=
  {| Namespace := ""; Name := ""; Spec_TLS := false; Status_Ingress := [] |}.
End Route.

Module Container.
Record t := { Name : string; Image : string }.
End Container.

Module Deployment.
Record t := {
  Spec_Selector_MatchLabels : gmap string string;
  Spec_Template_Spec_Containers : list Container.t;
  Status_AvailableReplicas : Z      (* int32 *)
}.
Definition empty : t :=
  {| Spec_Selector_MatchLabels := ∅; Spec_Template_Spec_Containers := [];
     Status_AvailableReplicas := 0 |}.
End Deployment.

Module Pod.
Record t := {
  Name : string;
  (** [util.IsBeingDeleted(&pod)] and [podutils.IsPodReady(&pod)] *)
  IsBeingDeleted : bool;
  IsPodReady : bool
}.
End Pod.

Module ContainerMetrics.
Record t := {
  Name : string;
  (** [Usage.Memory().ScaledValue(resource.Kilo)] *)
  Usage_Memory_Kilo : Z
}.
Definition empty : t := {| Name := ""; Usage_Memory_Kilo := 0 |}.
End ContainerMetrics.

Module Namespace.
Record t := { Name : string; Status_Phase : string }.
Definition empty : t := {| Name := ""; Status_Phase := "" |}.
End Namespace.

Definition NamespaceActive : string := "Active".

(** [cluster.RoleLabel(cluster.Tenant)] *)
Definition TenantRoleLabel : string :=
  "cluster-role.toolchain.dev.openshift.com/tenant".

(** A component condition, as [status.GetDeploymentStatusConditions] returns
    them. *)
Module Condition.
Record t := { Type_ : string; Status : string; Reason : string }.
End Condition.

(** ** The collaborators

    [client.Client] is an interface: the struct holds one implementation.  A
    read ([Get], [List]) answers with the object or with an error and leaves
    the caller's object as it was on an error; each answer may depend on the
    requests made before it (the first argument). *)
Module Client.
Record t := {
  GetService : nat -> string -> string -> Service.t + error;
  GetToolchainCluster : nat -> string -> string -> ToolchainCluster.t + error;
  (** in a namespace, with the given matching labels *)
  ListToolchainClusters :
    nat -> string -> list (string * string) -> list ToolchainCluster.t + error;
  UpdateToolchainCluster : nat -> ToolchainCluster.t -> option error;
  GetRoute : nat -> string -> string -> Route.t + error;
  CreateRoute : nat -> Route.t -> option error;
  GetDeployment : nat -> string -> string -> Deployment.t + error;
  ListPods : nat -> string -> gmap string string -> list Pod.t + error;
  GetPodMetrics : nat -> string -> string -> list ContainerMetrics.t + error;
  CreateNamespace : nat -> string -> option error;
  GetNamespace : nat -> string -> Namespace.t + error
}.
End Client.

(** [rest.Config] *)
Module RestConfig.
Record t := { BearerToken : string }.
End RestConfig.

(** The functions the package imports and this file does not define. *)
Record Env := {
  (** the ticks the ticker of [wait.Poll] delivers before its timer fires *)
  ticks : Duration.t -> Duration.t -> nat;
  (** [metrics.GetMetricValue(restConfig, url, family, labels)] *)
  metrics_GetMetricValue :
    nat -> RestConfig.t -> string -> string -> list string -> Float64.t * option error;
  (** [status.GetDeploymentStatusConditions(cl, name, namespace)] *)
  status_GetDeploymentStatusConditions :
    nat -> Client.t -> string -> string -> list Condition.t;
  (** [status.ValidateComponentConditionReady(conditions...)] *)
  status_ValidateComponentConditionReady : list Condition.t -> option error;
  (** [http.NewRequest("GET", url, nil)] fails on a malformed URL *)
  http_NewRequest : string -> option error;
  (** [client.Do(request)]: the status code of the response, or an error;
      the arguments are whether TLS verification is skipped, the URL and the
      bearer token of the Authorization header when there is one *)
  http_Do : nat -> bool -> string -> option string -> Z + error
}.

Definition StatusOK : Z := 200.

(** ** The waiter *)

Module Awaitility.
Record t := {
  Client : Client.t;
  RestConfig : RestConfig.t;
  ClusterName : string;
  Namespace : string;
  Type_ : string;                   (* cluster.Type *)
  RetryInterval : Duration.t;
  Timeout : Duration.t;
  MetricsURL : string;
  baselineValues : option loc       (* map[string]float64 *)
}.
End Awaitility.

(** [copy]: a new struct that receives [*a], field by field; the map field
    receives the reference. *)
Definition copy (a : Awaitility.t) : Awaitility.t :=
  {| Awaitility.Client := Awaitility.Client a;
     Awaitility.RestConfig := Awaitility.RestConfig a;
     Awaitility.ClusterName := Awaitility.ClusterName a;
     Awaitility.Namespace := Awaitility.Namespace a;
     Awaitility.Type_ := Awaitility.Type_ a;
     Awaitility.RetryInterval := Awaitility.RetryInterval a;
     Awaitility.Timeout := Awaitility.Timeout a;
     Awaitility.MetricsURL := Awaitility.MetricsURL a;
     Awaitility.baselineValues := Awaitility.baselineValues a |}.

(** [RetryOption], the interface, and the two types that implement it *)
Inductive RetryOption : Type :=
| RetryInterval (o : Duration.t)
| TimeoutOption (o : Duration.t).

(** [apply] assigns a field of the struct it is given. *)
Definition apply (o : RetryOption) (a : Awaitility.t) : Awaitility.t :=
  match o with
  | RetryInterval d =>
      {| Awaitility.Client := Awaitility.Client a;
         Awaitility.RestConfig := Awaitility.RestConfig a;
         Awaitility.ClusterName := Awaitility.ClusterName a;
         Awaitility.Namespace := Awaitility.Namespace a;
         Awaitility.Type_ := Awaitility.Type_ a;
         Awaitility.RetryInterval := d;
         Awaitility.Timeout := Awaitility.Timeout a;
         Awaitility.MetricsURL := Awaitility.MetricsURL a;
         Awaitility.baselineValues := Awaitility.baselineValues a |}
  | TimeoutOption d =>
      {| Awaitility.Client := Awaitility.Client a;
         Awaitility.RestConfig := Awaitility.RestConfig a;
         Awaitility.ClusterName := Awaitility.ClusterName a;
         Awaitility.Namespace := Awaitility.Namespace a;
         Awaitility.Type_ := Awaitility.Type_ a;
         Awaitility.RetryInterval := Awaitility.RetryInterval a;
         Awaitility.Timeout := d;
         Awaitility.MetricsURL := Awaitility.MetricsURL a;
         Awaitility.baselineValues := Awaitility.baselineValues a |}
  end.

(** [WithRetryOptions]: the options applied, in order, to a copy *)
Definition WithRetryOptions (a : Awaitility.t) (options : list RetryOption)
  : Awaitility.t :=
  fold_left (fun result option => apply option result) options (copy a).

(** [ReadyToolchainCluster] *)
Definition ReadyToolchainCluster : ToolchainClusterCondition.t :=
  {| ToolchainClusterCondition.Type_ := "Ready";
     ToolchainClusterCondition.Status := "True" |}.

(** ** Criteria *)

Fixpoint containsClusterCondition (conditions : list ToolchainClusterCondition.t)
    (contains : option ToolchainClusterCondition.t) : bool :=
  match contains with
  | None => true
  | Some expected =>
      match conditions with
      | [] => false
      | c :: rest =>
          if String.eqb (ToolchainClusterCondition.Type_ c)
                        (ToolchainClusterCondition.Type_ expected)
          then String.eqb (ToolchainClusterCondition.Status expected)
                          (ToolchainClusterCondition.Status c)
          else containsClusterCondition rest contains
      end
  end.

(** [ToolchainClusterWaitCriterion]: a struct around the predicate *)
Record ToolchainClusterWaitCriterion := {
  Match : ToolchainCluster.t -> bool
}.

(** the loop returns [false] at the first criterion that does not match *)
Fixpoint matchToolchainClusterWaitCriterion (actual : ToolchainCluster.t)
    (criteria : list ToolchainClusterWaitCriterion) : bool :=
  match criteria with
  | [] => true
  | c :: rest =>
      if negb (Match c actual) then false
      else matchToolchainClusterWaitCriterion actual rest
  end.

Definition UntilToolchainClusterHasName (expectedName : string)
  : ToolchainClusterWaitCriterion :=
  {| Match := fun actual => String.eqb (ToolchainCluster.Name actual) expectedName |}.

Definition UntilToolchainClusterHasCondition (expected : ToolchainClusterCondition.t)
  : ToolchainClusterWaitCriterion :=
  {| Match := fun actual =>
       containsClusterCondition (ToolchainCluster.Status_Conditions actual)
                                (Some expected) |}.

Definition UntilToolchainClusterHasLabels (expected : gmap string string)
  : ToolchainClusterWaitCriterion :=
  {| Match := fun actual =>
       forallb (fun kv : string * string =>
                  match ToolchainCluster.Labels actual !! fst kv with
                  | Some actualLabelValue => String.eqb (snd kv) actualLabelValue
                  | None => false
                  end)
               (map_to_list expected) |}.

Definition UntilToolchainClusterHasNoTenantLabel : ToolchainClusterWaitCriterion :=
  {| Match := fun actual =>
       match ToolchainCluster.Labels actual !! TenantRoleLabel with
       | Some _ => false
       | None => true
       end |}.

(** [DeploymentCriteria] *)
Definition DeploymentCriteria := Deployment.t -> bool.

Definition DeploymentHasContainerWithImage (containerName image : string)
  : DeploymentCriteria :=
  fun deployment =>
    existsb (fun container =>
               String.eqb (Container.Name container) containerName
               && String.eqb (Container.Image container) image)
            (Deployment.Spec_Template_Spec_Containers deployment).

(** [len(labelAndValues)%2 != 0] *)
Definition oddLength (labelAndValues : list string) : bool :=
  negb (Nat.eqb (Nat.modulo (length labelAndValues) 2) 0).

(** ** The poll engine and the wait operations *)

Section Wait.

Variable env : Env.

(** [wait.Poll] is imported from k8s.io/apimachinery/pkg/util/wait; the
    embedding follows its contract: "Poll tries a condition func until it
    returns true, an error, or the timeout is reached.  Poll always waits the
    interval before the run of 'condition'.  'condition' will always be
    invoked at least once."  The condition runs once per tick of the ticker
    and once more when the timer has fired; an error of the condition ends
    the poll with that error, whatever [done] is.  The package is written to
    that contract: a condition that wants to go on returns a nil error
    ([return false, nil // keep waiting]), turning a not-found error into nil
    where the target may not exist yet, and [UpdateToolchainCluster] returns
    [true, err] to give up.  How many ticks fit before the timer fires is a
    matter of real time and is left to [ticks] of the environment; the
    library takes a zero timeout for "no deadline", which [ticks] cannot
    express, so what is proved of deadlines assumes a positive timeout.

    The variables a condition captures and assigns are its argument and the
    first component of its result.  [n] is the number of ticks still to come
    before the timer fires. *)
Fixpoint pollLoop {V : Type} (n : nat)
    (condition : V -> Test (V * (bool * option error))) (v : V)
  : Test (V * option error) :=
  r <- condition v ;;
  match snd (snd r) with
  | Some err => ret (fst r, Some err)
  | None =>
      if fst (snd r) then ret (fst r, None)
      else match n with
           | O => ret (fst r, Some ErrWaitTimeout)
           | S n' => pollLoop n' condition (fst r)
           end
  end.

(** The ticker panics on an interval that is not positive. *)
Definition Poll {V : Type} (interval timeout : Duration.t)
    (condition : V -> Test (V * (bool * option error))) (v : V)
  : Test (V * option error) :=
  recordPoll interval timeout ;;
  if (interval <=? 0)%Z then panic
  else pollLoop (ticks env interval timeout) condition v.

(** *** Metrics *)

Definition baselineKey (a : Awaitility.t) (name : string)
    (labelAndValues : list string) : Test string :=
  (if oddLength labelAndValues then failNow else ret tt) ;;
  ret (String.concat "," (name :: labelAndValues)).

Definition fetchMetricValue (a : Awaitility.t) (family : string)
    (labels : list string) : Test (Float64.t * option error) :=
  request (fun n => metrics_GetMetricValue env n (Awaitility.RestConfig a)
                      (Awaitility.MetricsURL a) family labels).

Definition GetMetricValue (a : Awaitility.t) (family : string)
    (labelAndValues : list string) : Test Float64.t :=
  r <- fetchMetricValue a family labelAndValues ;;
  require_NoError (snd r) ;;
  ret (fst r).

Definition GetMetricValueOrZero (a : Awaitility.t) (family : string)
    (labelAndValues : list string) : Test Float64.t :=
  (if oddLength labelAndValues then failNow else ret tt) ;;
  r <- fetchMetricValue a family labelAndValues ;;
  match snd r with
  | None => ret (fst r)
  | Some _ => ret Float64.zero
  end.

(** the condition of [WaitUntiltMetricHasValue]; it assigns [value] *)
Definition WaitUntiltMetricHasValue_func1 (a : Awaitility.t) (family : string)
    (expectedValue : Float64.t) (labels : list string) (_ : Float64.t)
  : Test (Float64.t * (bool * option error)) :=
  r <- fetchMetricValue a family labels ;;
  let value := fst r in
  let err := snd r in
  ret (value,
       ((Float64.eqb value expectedValue && isNil err)
        || (Float64.eqb expectedValue Float64.zero
            && Float64.eqb value Float64.zero),
        None)).

Definition WaitUntiltMetricHasValue (a : Awaitility.t) (family : string)
    (expectedValue : Float64.t) (labels : list string) : Test unit :=
  r <- Poll (Awaitility.RetryInterval a) (Awaitility.Timeout a)
         (WaitUntiltMetricHasValue_func1 a family expectedValue labels)
         Float64.zero ;;
  require_NoError (snd r).

Definition WaitUntilMetricHasValueOrMore_func1 (a : Awaitility.t) (family : string)
    (expectedValue : Float64.t) (labels : list string) (_ : Float64.t)
  : Test (Float64.t * (bool * option error)) :=
  r <- fetchMetricValue a family labels ;;
  ret (fst r,
       (Float64.geb (fst r) expectedValue && isNil (snd r),
        None)).

Definition WaitUntilMetricHasValueOrMore (a : Awaitility.t) (family : string)
    (expectedValue : Float64.t) (labels : list string) : Test (option error) :=
  r <- Poll (Awaitility.RetryInterval a) (Awaitility.Timeout a)
         (WaitUntilMetricHasValueOrMore_func1 a family expectedValue labels)
         Float64.zero ;;
  ret (snd r).

Definition WaitUntilMetricHasValueOrLess_func1 (a : Awaitility.t) (family : string)
    (expectedValue : Float64.t) (labels : list string) (_ : Float64.t)
  : Test (Float64.t * (bool * option error)) :=
  r <- fetchMetricValue a family labels ;;
  ret (fst r,
       (Float64.leb (fst r) expectedValue && isNil (snd r),
        None)).

Definition WaitUntilMetricHasValueOrLess (a : Awaitility.t) (family : string)
    (expectedValue : Float64.t) (labels : list string) : Test (option error) :=
  r <- Poll (Awaitility.RetryInterval a) (Awaitility.Timeout a)
         (WaitUntilMetricHasValueOrLess_func1 a family expectedValue labels)
         Float64.zero ;;
  ret (snd r).

Definition WaitForMetricDelta (a : Awaitility.t) (family : string)
    (delta : Float64.t) (labels : list string) : Test unit :=
  key <- baselineKey a family labels ;;
  baseline <- readBaseline (Awaitility.baselineValues a) key ;;
  let adjustedValue := Float64.add baseline delta in
  WaitUntiltMetricHasValue a family adjustedValue labels.

Definition WaitForMetricBaseline (a : Awaitility.t) (family : string)
    (labels : list string) : Test unit :=
  key <- baselineKey a family labels ;;
  baseline <- readBaseline (Awaitility.baselineValues a) key ;;
  WaitUntiltMetricHasValue a family baseline labels.

(** *** Services and routes *)

(** the condition of [WaitForService]; it assigns the pointer [metricsSvc] *)
Definition WaitForService_func1 (a : Awaitility.t) (name : string)
    (_ : option Service.t) : Test (option Service.t * (bool * option error)) :=
  r <- request (fun n => Client.GetService (Awaitility.Client a) n
                           (Awaitility.Namespace a) name) ;;
  match r with
  | inr err =>
      if IsNotFound err then ret (Some Service.empty, (false, None))
      else ret (Some Service.empty, (false, Some err))
  | inl metricsSvc => ret (Some metricsSvc, (true, None))
  end.

Definition WaitForService (a : Awaitility.t) (name : string)
  : Test (Service.t * option error) :=
  r <- Poll (Awaitility.RetryInterval a) (Awaitility.Timeout a)
         (WaitForService_func1 a name) None ;;
  match fst r with
  | None => panic                       (* [*metricsSvc] of a nil pointer *)
  | Some metricsSvc => ret (metricsSvc, snd r)
  end.

(** the condition of [WaitForRouteToBeAvailable]; [Get] fills [route] *)
Definition WaitForRouteToBeAvailable_func1 (a : Awaitility.t)
    (ns name endpoint : string) (route : Route.t)
  : Test (Route.t * (bool * option error)) :=
  r <- request (fun n => Client.GetRoute (Awaitility.Client a) n ns name) ;;
  match r with
  | inr err =>
      if IsNotFound err then ret (route, (false, None))
      else ret (route, (false, Some err))
  | inl route =>
      match Route.Status_Ingress route with
      | [] => ret (route, (false, None))
      | host :: _ =>
          if String.eqb host "" then ret (route, (false, None))
          else
            let tls := Route.Spec_TLS route in
            let url := (if tls then "https://" else "http://") ++ host ++ endpoint in
            match http_NewRequest env url with
            | Some err => ret (route, (false, Some err))
            | None =>
                let authorization :=
                  if tls
                  then Some ("Bearer " ++
                             RestConfig.BearerToken (Awaitility.RestConfig a))
                  else None in
                resp <- request (fun n => http_Do env n tls url authorization) ;;
                match resp with
                | inr err =>
                    if IsURLTimeout (Some err) then ret (route, (false, None))
                    else ret (route, (false, Some err))
                | inl statusCode =>
                    if negb (statusCode =? StatusOK)%Z
                    then ret (route, (false, None))
                    else ret (route, (true, None))
                end
            end
      end
  end.

Definition WaitForRouteToBeAvailable (a : Awaitility.t)
    (ns name endpoint : string) : Test (Route.t * option error) :=
  Poll (Awaitility.RetryInterval a) (Awaitility.Timeout a)
    (WaitForRouteToBeAvailable_func1 a ns name endpoint) Route.empty.

Definition SetupRouteForService (a : Awaitility.t)
    (serviceName endpoint : string) : Test (Route.t * option error) :=
  r <- WaitForService a serviceName ;;
  let service := fst r in
  match snd r with
  | Some err => ret (Route.empty, Some err)
  | None =>
      g <- request (fun n => Client.GetRoute (Awaitility.Client a) n
                               (Service.Namespace service) (Service.Name service)) ;;
      match g with
      | inl route =>
          WaitForRouteToBeAvailable a (Route.Namespace route) (Route.Name route)
            endpoint
      | inr err =>
          require_True (IsNotFound err) ;;
          let route := {| Route.Namespace := Service.Namespace service;
                          Route.Name := Service.Name service;
                          Route.Spec_TLS := true;
                          Route.Status_Ingress := [] |} in
          c <- request (fun n => Client.CreateRoute (Awaitility.Client a) n route) ;;
          match c with
          | Some err => ret (route, Some err)
          | None =>
              WaitForRouteToBeAvailable a (Route.Namespace route)
                (Route.Name route) endpoint
          end
      end
  end.

(** *** ToolchainClusters *)

Definition GetToolchainCluster (a : Awaitility.t) (clusterType namespace : string)
    (condition : option ToolchainClusterCondition.t)
  : Test (ToolchainCluster.t * bool * option error) :=
  r <- request (fun n => Client.ListToolchainClusters (Awaitility.Client a) n
                           (Awaitility.Namespace a)
                           [("namespace", namespace); ("type", clusterType)]) ;;
  match r with
  | inr err => ret (ToolchainCluster.empty, false, Some err)
  | inl items =>
      match find (fun cl => containsClusterCondition
                              (ToolchainCluster.Status_Conditions cl) condition)
                 items with
      | Some cl => ret (cl, true, None)
      | None => ret (ToolchainCluster.empty, false, None)
      end
  end.

(** the condition of [WaitForToolchainClusterWithCondition]; it assigns [c] *)
Definition WaitForToolchainClusterWithCondition_func1 (a : Awaitility.t)
    (clusterType namespace : string)
    (condition : option ToolchainClusterCondition.t) (_ : ToolchainCluster.t)
  : Test (ToolchainCluster.t * (bool * option error)) :=
  r <- GetToolchainCluster a clusterType namespace condition ;;
  let c := fst (fst r) in
  let ready := snd (fst r) in
  let err := snd r in
  if ready then ret (c, (true, None)) else ret (c, (false, err)).

Definition WaitForToolchainClusterWithCondition (a : Awaitility.t)
    (clusterType namespace : string)
    (condition : option ToolchainClusterCondition.t)
  : Test (ToolchainCluster.t * option error) :=
  let timeout :=
    match condition with
    | Some _ => ToolchainClusterConditionTimeout
    | None => Awaitility.Timeout a
    end in
  Poll (Awaitility.RetryInterval a) timeout
    (WaitForToolchainClusterWithCondition_func1 a clusterType namespace condition)
    ToolchainCluster.empty.

(** the condition of [WaitForNamedToolchainClusterWithCondition]; it assigns
    [c]; its last [return false, err] returns the named result [err], which is
    nil there *)
Definition WaitForNamedToolchainClusterWithCondition_func1 (a : Awaitility.t)
    (name : string) (condition : option ToolchainClusterCondition.t)
    (_ : ToolchainCluster.t)
  : Test (ToolchainCluster.t * (bool * option error)) :=
  r <- request (fun n => Client.GetToolchainCluster (Awaitility.Client a) n
                           (Awaitility.Namespace a) name) ;;
  match r with
  | inr err => ret (ToolchainCluster.empty, (false, Some err))
  | inl c =>
      if containsClusterCondition (ToolchainCluster.Status_Conditions c) condition
      then ret (c, (true, None))
      else ret (c, (false, None))
  end.

Definition WaitForNamedToolchainClusterWithCondition (a : Awaitility.t)
    (name : string) (condition : option ToolchainClusterCondition.t)
  : Test (ToolchainCluster.t * option error) :=
  let timeout :=
    match condition with
    | Some _ => ToolchainClusterConditionTimeout
    | None => Awaitility.Timeout a
    end in
  Poll (Awaitility.RetryInterval a) timeout
    (WaitForNamedToolchainClusterWithCondition_func1 a name condition)
    ToolchainCluster.empty.

(** the condition of [WaitForToolchainCluster]; it assigns the pointer [cl] *)
Definition WaitForToolchainCluster_func1 (a : Awaitility.t)
    (criteria : list ToolchainClusterWaitCriterion) (cl : option ToolchainCluster.t)
  : Test (option ToolchainCluster.t * (bool * option error)) :=
  r <- request (fun n => Client.ListToolchainClusters (Awaitility.Client a) n
                           (Awaitility.Namespace a) []) ;;
  match r with
  | inr err => ret (cl, (false, Some err))
  | inl items =>
      match find (fun obj => matchToolchainClusterWaitCriterion obj criteria)
                 items with
      | Some cpObj => ret (Some cpObj, (true, None))
      | None => ret (cl, (false, None))
      end
  end.

Definition WaitForToolchainCluster (a : Awaitility.t)
    (criteria : list ToolchainClusterWaitCriterion)
  : Test (option ToolchainCluster.t * option error) :=
  Poll (Awaitility.RetryInterval a) (Awaitility.Timeout a)
    (WaitForToolchainCluster_func1 a criteria) None.

(** the condition of [UpdateToolchainCluster]; it assigns the pointer [tc] *)
Definition UpdateToolchainCluster_func1 (a : Awaitility.t)
    (toolchainClusterName : string)
    (modifyToolchainCluster : ToolchainCluster.t -> ToolchainCluster.t)
    (tc : option ToolchainCluster.t)
  : Test (option ToolchainCluster.t * (bool * option error)) :=
  r <- request (fun n => Client.GetToolchainCluster (Awaitility.Client a) n
                           (Awaitility.Namespace a) toolchainClusterName) ;;
  match r with
  | inr err => ret (tc, (true, Some err))
  | inl newToolchainCluster =>
      let newToolchainCluster := modifyToolchainCluster newToolchainCluster in
      u <- request (fun n => Client.UpdateToolchainCluster (Awaitility.Client a) n
                               newToolchainCluster) ;;
      match u with
      | Some _ => ret (tc, (false, None))
      | None => ret (Some newToolchainCluster, (true, None))
      end
  end.

Definition UpdateToolchainCluster (a : Awaitility.t) (toolchainClusterName : string)
    (modifyToolchainCluster : ToolchainCluster.t -> ToolchainCluster.t)
  : Test (option ToolchainCluster.t * option error) :=
  Poll (Awaitility.RetryInterval a) (Awaitility.Timeout a)
    (UpdateToolchainCluster_func1 a toolchainClusterName modifyToolchainCluster)
    None.

(** *** Pods, namespaces and deployments *)

(** the condition of [GetMemoryUsage]; it assigns [containerMetrics]; a
    not-found error leaves [podMetrics] empty *)
Definition GetMemoryUsage_func1 (a : Awaitility.t) (podname ns : string)
    (containerMetrics : ContainerMetrics.t)
  : Test (ContainerMetrics.t * (bool * option error)) :=
  r <- request (fun n => Client.GetPodMetrics (Awaitility.Client a) n ns podname) ;;
  let search (containers : list ContainerMetrics.t) :=
    match find (fun c => String.eqb (ContainerMetrics.Name c) "manager")
               containers with
    | Some c => ret (c, (true, None))
    | None => ret (containerMetrics, (false, None))
    end in
  match r with
  | inr err =>
      if negb (IsNotFound err) then ret (containerMetrics, (false, Some err))
      else search []
  | inl containers => search containers
  end.

Definition GetMemoryUsage (a : Awaitility.t) (podname ns : string)
  : Test (Z * option error) :=
  r <- Poll (Awaitility.RetryInterval a) (Awaitility.Timeout a)
         (GetMemoryUsage_func1 a podname ns) ContainerMetrics.empty ;;
  match snd r with
  | Some err => ret ((-1)%Z, Some err)
  | None => ret (ContainerMetrics.Usage_Memory_Kilo (fst r), None)
  end.

(** the condition of [CreateNamespace] *)
Definition CreateNamespace_func1 (a : Awaitility.t) (name : string) (_ : unit)
  : Test (unit * (bool * option error)) :=
  r <- request (fun n => Client.GetNamespace (Awaitility.Client a) n name) ;;
  match r with
  | inr err =>
      if IsNotFound err then ret (tt, (false, None))
      else ret (tt, (false, Some err))
  | inl ns =>
      ret (tt, (String.eqb (Namespace.Status_Phase ns) NamespaceActive, None))
  end.

Definition CreateNamespace (a : Awaitility.t) (name : string) : Test unit :=
  err <- request (fun n => Client.CreateNamespace (Awaitility.Client a) n name) ;;
  require_NoError err ;;
  r <- Poll (Awaitility.RetryInterval a) (Awaitility.Timeout a)
         (CreateNamespace_func1 a name) tt ;;
  require_NoError (snd r) ;;
  registerCleanup name.

(** the loop over the criteria of [WaitForDeploymentToGetReady] *)
Fixpoint allCriteriaMatch (deployment : Deployment.t)
    (criteria : list DeploymentCriteria) : bool :=
  match criteria with
  | [] => true
  | criteriaMatch :: rest =>
      if negb (criteriaMatch deployment) then false
      else allCriteriaMatch deployment rest
  end.

(** the condition of [WaitForDeploymentToGetReady]; it assigns the pointer
    [deployment] *)
Definition WaitForDeploymentToGetReady_func1 (a : Awaitility.t) (name : string)
    (replicas : Z) (criteria : list DeploymentCriteria) (deployment : Deployment.t)
  : Test (Deployment.t * (bool * option error)) :=
  deploymentConditions <-
    request (fun n => status_GetDeploymentStatusConditions env n
                        (Awaitility.Client a) name (Awaitility.Namespace a)) ;;
  match status_ValidateComponentConditionReady env deploymentConditions with
  | Some _ => ret (deployment, (false, None))
  | None =>
      g <- request (fun n => Client.GetDeployment (Awaitility.Client a) n
                               (Awaitility.Namespace a) name) ;;
      match g with
      | inr _ => failNow
      | inl deployment =>
          if negb (Deployment.Status_AvailableReplicas deployment =? replicas)%Z
          then ret (deployment, (false, None))
          else
            l <- request (fun n => Client.ListPods (Awaitility.Client a) n
                                     (Awaitility.Namespace a)
                                     (Deployment.Spec_Selector_MatchLabels deployment)) ;;
            match l with
            | inr _ => failNow
            | inl pods =>
                if negb (Z.of_nat (length pods) =? replicas)%Z
                then ret (deployment, (false, None))
                else if existsb (fun pod => Pod.IsBeingDeleted pod
                                            || negb (Pod.IsPodReady pod)) pods
                then ret (deployment, (false, None))
                else if negb (allCriteriaMatch deployment criteria)
                then ret (deployment, (false, None))
                else ret (deployment, (true, None))
            end
      end
  end.

Definition WaitForDeploymentToGetReady (a : Awaitility.t) (name : string)
    (replicas : Z) (criteria : list DeploymentCriteria) : Test Deployment.t :=
  r <- Poll (Awaitility.RetryInterval a) (Duration.mul 6 (Awaitility.Timeout a))
         (WaitForDeploymentToGetReady_func1 a name replicas criteria)
         Deployment.empty ;;
  require_NoError (snd r) ;;
  ret (fst r).

End Wait.

(** ** What the properties speak of *)

(** a step of a test that leaves the record of the polls as it is *)
Definition keepsPolls {A : Type} (m : Test A) : Prop :=
  forall s, polls (snd (m s)) = polls s.

(** a test that calls [wait.Poll] once, with the given interval and timeout *)
Definition addsPoll {A : Type} (m : Test A) (entry : Duration.t * Duration.t)
  : Prop :=
  forall s, polls (snd (m s)) = (polls s ++ [entry])%list.

(** a test all of whose calls of [wait.Poll] have the given interval and
    timeout *)
Definition pollsOnlyWith {A : Type} (m : Test A) (entry : Duration.t * Duration.t)
  : Prop :=
  forall s, exists n : nat, polls (snd (m s)) = (polls s ++ repeat entry n)%list.

(** a step of a test that leaves the baseline maps and the registered
    cleanups as they are *)
Definition keepsStore {A : Type} (m : Test A) : Prop :=
  forall s, heap (snd (m s)) = heap s /\ cleanups (snd (m s)) = cleanups s.

(** a string without the separator of [baselineKey] *)
Fixpoint commaFree (s : string) : bool :=
  match s with
  | EmptyString => true
  | String c rest => negb (Ascii.eqb c (Ascii.ascii_of_nat 44)) && commaFree rest
  end.

(** label pairs, as the variadic arguments [k1, v1, k2, v2, ...] *)
Definition labelArgs (pairs : list (string * string)) : list string :=
  flat_map (fun kv => [fst kv; snd kv]) pairs.

(** ** A scripted remote system, for the examples *)

Definition exampleCluster (name : string) : ToolchainCluster.t :=
  {| ToolchainCluster.Name := name;
     ToolchainCluster.Labels := {[ "type" := "member" ]};
     ToolchainCluster.Spec := "";
     ToolchainCluster.Status_Conditions := [ReadyToolchainCluster] |}.

(** The service appears with the fourth request, the ToolchainCluster with the
    second one; everything else is there from the start. *)
Definition exampleClient : Client.t :=
  {| Client.GetService := fun n ns name =>
       if (n <? 3)%nat then inr (ErrNotFound "service not found")
       else inl {| Service.Namespace := ns; Service.Name := name;
                   Service.Kind := "Service" |};
     Client.GetToolchainCluster := fun n ns name =>
       if (n <? 1)%nat then inr (ErrNotFound "toolchaincluster not found")
       else inl (exampleCluster name);
     Client.ListToolchainClusters := fun n ns labels => inl [exampleCluster "member-1"];
     Client.UpdateToolchainCluster := fun n tc => None;
     Client.GetRoute := fun n ns name =>
       inl {| Route.Namespace := ns; Route.Name := name; Route.Spec_TLS := true;
              Route.Status_Ingress := ["example.test"] |};
     Client.CreateRoute := fun n r => None;
     Client.GetDeployment := fun n ns name =>
       inl {| Deployment.Spec_Selector_MatchLabels := ∅;
              Deployment.Spec_Template_Spec_Containers := [];
              Deployment.Status_AvailableReplicas := 1 |};
     Client.ListPods := fun n ns labels =>
       inl [{| Pod.Name := "pod-1"; Pod.IsBeingDeleted := false;
               Pod.IsPodReady := true |}];
     Client.GetPodMetrics := fun n ns name =>
       inl [{| ContainerMetrics.Name := "manager";
               ContainerMetrics.Usage_Memory_Kilo := 1024 |}];
     Client.CreateNamespace := fun n name => None;
     Client.GetNamespace := fun n name =>
       inl {| Namespace.Name := name; Namespace.Status_Phase := NamespaceActive |} |}.

(** The ticker delivers [timeout / interval] ticks; the metric counts the
    requests answered so far, and a fetch with an odd number of label
    arguments is an error. *)
Definition exampleEnv : Env :=
  {| ticks := fun interval timeout => Z.to_nat (timeout / interval);
     metrics_GetMetricValue := fun n _ _ family labels =>
       if oddLength labels
       then (Float64.of_Z (-1), Some (ErrOther "odd number of label arguments"))
       else (Float64.of_Z (Z.of_nat n), None);
     status_GetDeploymentStatusConditions := fun n _ _ _ => [];
     status_ValidateComponentConditionReady := fun _ => None;
     http_NewRequest := fun _ => None;
     http_Do := fun n _ _ _ => inl StatusOK |}.

Definition exampleAwaitility : Awaitility.t :=
  {| Awaitility.Client := exampleClient;
     Awaitility.RestConfig := {| RestConfig.BearerToken := "token" |};
     Awaitility.ClusterName := "host";
     Awaitility.Namespace := "toolchain-host-operator";
     Awaitility.Type_ := "host";
     Awaitility.RetryInterval := DefaultRetryInterval;
     Awaitility.Timeout := DefaultTimeout;
     Awaitility.MetricsURL := "https://metrics.example.test";
     Awaitility.baselineValues := Some 1%positive |}.

(** a test that has just captured the baseline 5 of one metric *)
Definition exampleState : State :=
  {| clock := 0;
     polls := [];
     heap := {[ 1%positive := {[ "sandbox_users,cluster_name,member-1" := Float64.of_Z 5 ]} ]};
     cleanups := [] |}.

(** a remote system in which nothing exists yet: every read is answered
    "not found" *)
Definition absentClient : Client.t :=
  {| Client.GetService := fun n ns name => inr (ErrNotFound "not found");
     Client.GetToolchainCluster := fun n ns name => inr (ErrNotFound "not found");
     Client.ListToolchainClusters := fun n ns labels => inl [];
     Client.UpdateToolchainCluster := fun n tc => Some (ErrNotFound "not found");
     Client.GetRoute := fun n ns name => inr (ErrNotFound "not found");
     Client.CreateRoute := fun n r => None;
     Client.GetDeployment := fun n ns name => inr (ErrNotFound "not found");
     Client.ListPods := fun n ns labels => inl [];
     Client.GetPodMetrics := fun n ns name => inr (ErrNotFound "not found");
     Client.CreateNamespace := fun n name => None;
     Client.GetNamespace := fun n name => inr (ErrNotFound "not found") |}.

Definition absentAwaitility : Awaitility.t :=
  {| Awaitility.Client := absentClient;
     Awaitility.RestConfig := {| RestConfig.BearerToken := "token" |};
     Awaitility.ClusterName := "member";
     Awaitility.Namespace := "toolchain-member-operator";
     Awaitility.Type_ := "member";
     Awaitility.RetryInterval := DefaultRetryInterval;
     Awaitility.Timeout := DefaultTimeout;
     Awaitility.MetricsURL := "https://metrics.example.test";
     Awaitility.baselineValues := None |}.

(** * Properties *)

(** ** Criteria composition *)

Lemma matchToolchainClusterWaitCriterion_forallb actual criteria :
  matchToolchainClusterWaitCriterion actual criteria
  = forallb (fun c => Match c actual) criteria.
Proof.
  induction criteria as [|c rest IH]; simpl; [reflexivity|].
  rewrite IH. destruct (Match c actual); reflexivity.
Qed.

Lemma forallb_Permutation {A} (f : A -> bool) (l l' : list A) :
  Permutation l l' -> forallb f l = forallb f l'.
Proof.
  induction 1 as [|x l l' _ IH|x y l|l l' l'' _ IH1 _ IH2]; simpl.
  - reflexivity.
  - now rewrite IH.
  - destruct (f x), (f y); reflexivity.
  - now rewrite IH1.
Qed.

(** C8. The composite of a list of criteria matches a ToolchainCluster
    exactly when every criterion of the list matches it, and a permutation of
    the list gives the same result. *)
Theorem matchToolchainClusterWaitCriterion_conjunction
    (actual : ToolchainCluster.t)
    (criteria criteria' : list ToolchainClusterWaitCriterion)
    (Hperm : Permutation criteria criteria') :
  (matchToolchainClusterWaitCriterion actual criteria = true
   <-> Forall (fun c => Match c actual = true) criteria)
  /\ matchToolchainClusterWaitCriterion actual criteria'
     = matchToolchainClusterWaitCriterion actual criteria.
Proof.
  split.
  - rewrite matchToolchainClusterWaitCriterion_forallb, forallb_forall.
    rewrite List.Forall_forall. reflexivity.
  - rewrite !matchToolchainClusterWaitCriterion_forallb.
    symmetry. now apply forallb_Permutation.
Qed.

Lemma matchToolchainClusterWaitCriterion_conjunction_witness :
  let criteria := [UntilToolchainClusterHasName "member-1";
                   UntilToolchainClusterHasNoTenantLabel] in
  let criteria' := [UntilToolchainClusterHasNoTenantLabel;
                    UntilToolchainClusterHasName "member-1"] in
  Permutation criteria criteria'
  /\ ((matchToolchainClusterWaitCriterion (exampleCluster "member-1") criteria = true
       <-> Forall (fun c => Match c (exampleCluster "member-1") = true) criteria)
      /\ matchToolchainClusterWaitCriterion (exampleCluster "member-1") criteria'
         = matchToolchainClusterWaitCriterion (exampleCluster "member-1") criteria).
Proof.
  split.
  - apply perm_swap.
  - apply (matchToolchainClusterWaitCriterion_conjunction
             (exampleCluster "member-1")
             [UntilToolchainClusterHasName "member-1";
              UntilToolchainClusterHasNoTenantLabel]
             [UntilToolchainClusterHasNoTenantLabel;
              UntilToolchainClusterHasName "member-1"]).
    apply perm_swap.
Defined.

(** ** The key of the baseline store *)

Lemma baselineKey_eq a name labelAndValues s :
  baselineKey a name labelAndValues s
  = (if oddLength labelAndValues then FailNow
     else Done (String.concat "," (name :: labelAndValues)), s).
Proof.
  unfold baselineKey, bind, failNow, ret.
  destruct (oddLength labelAndValues); reflexivity.
Qed.

Lemma commaFree_app_comma x r : commaFree (x ++ "," ++ r) = false.
Proof.
  induction x as [|c x IH]; simpl; [reflexivity|].
  rewrite IH. apply andb_false_r.
Qed.

Lemma append_nil_l (s : string) : "" ++ s = s.
Proof. reflexivity. Qed.

Lemma append_cons c (x s : string) : String c x ++ s = String c (x ++ s).
Proof. reflexivity. Qed.

Lemma append_comma_inj x y r r' :
  commaFree x = true -> commaFree y = true ->
  x ++ "," ++ r = y ++ "," ++ r' -> x = y /\ r = r'.
Proof.
  revert y. induction x as [|c x IH]; intros [|d y] Hx Hy Heq;
    repeat (rewrite append_nil_l in Heq || rewrite append_cons in Heq);
    simpl in Hx, Hy.
  - injection Heq as ->. split; reflexivity.
  - injection Heq as <- _. discriminate.
  - injection Heq as -> _. discriminate.
  - injection Heq as -> Heq.
    apply andb_true_iff in Hx as [_ Hx]. apply andb_true_iff in Hy as [_ Hy].
    destruct (IH y Hx Hy Heq) as [-> ->]. split; reflexivity.
Qed.

Lemma concat_comma_inj xs : forall x y ys,
  forallb commaFree (x :: xs) = true -> forallb commaFree (y :: ys) = true ->
  String.concat "," (x :: xs) = String.concat "," (y :: ys) ->
  x = y /\ xs = ys.
Proof.
  induction xs as [|x2 xs IH]; intros x y [|y2 ys] Hx Hy Heq.
  - simpl in Heq. subst. split; reflexivity.
  - exfalso. simpl in Hx. rewrite andb_true_r in Hx.
    change (x = y ++ "," ++ String.concat "," (y2 :: ys)) in Heq.
    rewrite Heq, commaFree_app_comma in Hx. discriminate.
  - exfalso. simpl in Hy. rewrite andb_true_r in Hy.
    change (x ++ "," ++ String.concat "," (x2 :: xs) = y) in Heq.
    rewrite <- Heq, commaFree_app_comma in Hy. discriminate.
  - change (x ++ "," ++ String.concat "," (x2 :: xs)
            = y ++ "," ++ String.concat "," (y2 :: ys)) in Heq.
    apply andb_true_iff in Hx as [Hx Hxs]. apply andb_true_iff in Hy as [Hy Hys].
    destruct (append_comma_inj _ _ _ _ Hx Hy Heq) as [-> Hrest].
    destruct (IH _ _ _ Hxs Hys Hrest) as [-> ->]. split; reflexivity.
Qed.

(** C6, as the specification states it, fails: the same set of label pairs in
    another order gives another key. *)
Lemma baselineKey_sorted_counterexample :
  let pairs := [("cluster_name", "member-1"); ("role", "tenant")] in
  let pairs' := [("role", "tenant"); ("cluster_name", "member-1")] in
  Permutation pairs pairs'
  /\ fst (baselineKey exampleAwaitility "sandbox_users" (labelArgs pairs) exampleState)
     = Done "sandbox_users,cluster_name,member-1,role,tenant"
  /\ fst (baselineKey exampleAwaitility "sandbox_users" (labelArgs pairs') exampleState)
     = Done "sandbox_users,role,tenant,cluster_name,member-1"
  /\ fst (baselineKey exampleAwaitility "sandbox_users" (labelArgs pairs) exampleState)
     <> fst (baselineKey exampleAwaitility "sandbox_users" (labelArgs pairs') exampleState).
Proof.
  split; [apply perm_swap|].
  split; [reflexivity|]. split; [reflexivity|].
  vm_compute. discriminate.
Qed.

(** C6, amended.  For an even number of label arguments the key is the family
    name and the label arguments in the order they were given, joined by
    commas, and the state of the test is untouched; nothing is sorted.  The
    key is determined by that sequence, and for names without commas it
    determines the sequence: another family or another order of the labels
    is another key. *)
Theorem baselineKey_in_argument_order
    (a a' : Awaitility.t) (family family' : string) (labels labels' : list string)
    (s s' : State)
    (Heven : oddLength labels = false)
    (Hfree : forallb commaFree (family :: labels) = true)
    (Hfree' : forallb commaFree (family' :: labels') = true)
    (Hsame : fst (baselineKey a' family' labels' s')
             = fst (baselineKey a family labels s)) :
  baselineKey a family labels s
  = (Done (String.concat "," (family :: labels)), s)
  /\ family' = family /\ labels' = labels.
Proof.
  rewrite !baselineKey_eq in *. rewrite Heven in *. split; [reflexivity|].
  simpl fst in Hsame. destruct (oddLength labels'); [discriminate|].
  injection Hsame as Hsame.
  destruct (concat_comma_inj _ _ _ _ Hfree' Hfree Hsame) as [-> ->].
  split; reflexivity.
Qed.

Lemma baselineKey_in_argument_order_witness :
  baselineKey exampleAwaitility "sandbox_users" ["cluster_name"; "member-1"]
    exampleState
  = (Done "sandbox_users,cluster_name,member-1", exampleState)
  /\ "sandbox_users" = "sandbox_users"
  /\ ["cluster_name"; "member-1"] = ["cluster_name"; "member-1"].
Proof.
  apply (baselineKey_in_argument_order exampleAwaitility exampleAwaitility
           "sandbox_users" "sandbox_users"
           ["cluster_name"; "member-1"] ["cluster_name"; "member-1"]
           exampleState exampleState);
    reflexivity.
Defined.

(** ** Specialising a waiter *)

Lemma apply_keeps_fields o a :
  Awaitility.baselineValues (apply o a) = Awaitility.baselineValues a
  /\ Awaitility.Client (apply o a) = Awaitility.Client a
  /\ Awaitility.Namespace (apply o a) = Awaitility.Namespace a.
Proof. destruct o; repeat split. Qed.

Lemma fold_apply_keeps_fields options : forall result,
  let result' := fold_left (fun r o => apply o r) options result in
  Awaitility.baselineValues result' = Awaitility.baselineValues result
  /\ Awaitility.Client result' = Awaitility.Client result
  /\ Awaitility.Namespace result' = Awaitility.Namespace result.
Proof.
  induction options as [|o options IH]; intros result; simpl.
  - repeat split.
  - destruct (IH (apply o result)) as (Hb & Hc & Hn).
    destruct (apply_keeps_fields o result) as (Hb' & Hc' & Hn').
    simpl in Hb, Hc, Hn. rewrite Hb, Hc, Hn. auto.
Qed.

Lemma WithRetryOptions_baselineValues a options :
  Awaitility.baselineValues (WithRetryOptions a options)
  = Awaitility.baselineValues a.
Proof.
  unfold WithRetryOptions.
  destruct (fold_apply_keeps_fields options (copy a)) as (Hb & _). exact Hb.
Qed.

Lemma WithRetryOptions_Client a options :
  Awaitility.Client (WithRetryOptions a options) = Awaitility.Client a.
Proof.
  unfold WithRetryOptions.
  destruct (fold_apply_keeps_fields options (copy a)) as (_ & Hc & _). exact Hc.
Qed.

Lemma mapaccess_mapassign h m k v h' :
  mapassign h m k v = Some h' -> mapaccess h' m k = v.
Proof.
  destruct m as [l|]; simpl; [|discriminate].
  intros [= <-]. rewrite lookup_insert_eq. simpl.
  rewrite lookup_insert_eq. reflexivity.
Qed.

(** C2, as the specification states it, fails: the baseline 7 captured through
    the specialised waiter [b] is read through the original [a], where the key
    had the default 0 before. *)
Lemma WithRetryOptions_independent_store_counterexample :
  let a := exampleAwaitility in
  let b := WithRetryOptions a [TimeoutOption (30 * Duration.Second)] in
  let key := "sandbox_users,cluster_name,member-2" in
  let h := heap exampleState in
  mapaccess h (Awaitility.baselineValues a) key = Float64.zero
  /\ option_map (fun h' => mapaccess h' (Awaitility.baselineValues a) key)
       (mapassign h (Awaitility.baselineValues b) key (Float64.of_Z 7))
     = Some (Float64.of_Z 7)
  /\ Float64.of_Z 7 <> Float64.zero.
Proof.
  split; [vm_compute; reflexivity|].
  split; [vm_compute; reflexivity|].
  vm_compute. discriminate.
Qed.

(** C2, amended.  [WithRetryOptions] gives a new struct, with the retry
    options applied to it alone, but the struct copy copies the reference to
    the baseline map and not the map: the original and the specialised waiter
    hold the same store (and the same client), so a value written for a key
    through either of them is the value read for that key through the
    other. *)
Theorem WithRetryOptions_shares_baselineValues
    (a : Awaitility.t) (options : list RetryOption)
    (h h' : gmap loc (gmap string Float64.t)) (k : string) (v : Float64.t)
    (Hwrite : mapassign h (Awaitility.baselineValues (WithRetryOptions a options)) k v
              = Some h') :
  Awaitility.baselineValues (WithRetryOptions a options)
  = Awaitility.baselineValues a
  /\ Awaitility.Client (WithRetryOptions a options) = Awaitility.Client a
  /\ mapaccess h' (Awaitility.baselineValues a) k = v
  /\ mapassign h (Awaitility.baselineValues a) k v = Some h'
  /\ mapaccess h' (Awaitility.baselineValues (WithRetryOptions a options)) k = v.
Proof.
  rewrite WithRetryOptions_baselineValues in *.
  split; [reflexivity|]. split; [apply WithRetryOptions_Client|].
  split; [exact (mapaccess_mapassign _ _ _ _ _ Hwrite)|].
  split; [assumption|exact (mapaccess_mapassign _ _ _ _ _ Hwrite)].
Qed.

Lemma WithRetryOptions_shares_baselineValues_witness :
  let a := exampleAwaitility in
  let options := [TimeoutOption (30 * Duration.Second)] in
  let k := "sandbox_users,cluster_name,member-2" in
  let v := Float64.of_Z 7 in
  let h := heap exampleState in
  let h' := <[1%positive := <[k := v]> (default ∅ (h !! 1%positive))]> h in
  Awaitility.baselineValues (WithRetryOptions a options)
  = Awaitility.baselineValues a
  /\ Awaitility.Client (WithRetryOptions a options) = Awaitility.Client a
  /\ mapaccess h' (Awaitility.baselineValues a) k = v
  /\ mapassign h (Awaitility.baselineValues a) k v = Some h'
  /\ mapaccess h' (Awaitility.baselineValues (WithRetryOptions a options)) k = v.
Proof.
  intros a options k v h h'.
  apply (WithRetryOptions_shares_baselineValues a options h h' k v).
  reflexivity.
Defined.

(** ** The metric waits *)

Lemma WaitUntiltMetricHasValue_func1_eq
    (env : Env) (a : Awaitility.t) (family : string) (expectedValue : Float64.t)
    (labels : list string) (value0 : Float64.t) (s : State) :
  let fetched := metrics_GetMetricValue env (clock s) (Awaitility.RestConfig a)
                   (Awaitility.MetricsURL a) family labels in
  let value := fst fetched in
  let err := snd fetched in
  exists done : bool,
    fst (WaitUntiltMetricHasValue_func1 env a family expectedValue labels value0 s)
    = Done (value, (done, None))
    /\ (done = true
        <-> (Float64.eqb value expectedValue = true /\ err = None)
            \/ (Float64.eqb expectedValue Float64.zero = true
                /\ Float64.eqb value Float64.zero = true)).
Proof.
  intros fetched value err.
  unfold WaitUntiltMetricHasValue_func1, fetchMetricValue, bind, request, ret.
  simpl. fold fetched. fold value. fold err.
  eexists. split; [reflexivity|].
  rewrite orb_true_iff, !andb_true_iff.
  destruct err; simpl; intuition congruence.
Qed.

(** C3. One run of the condition of [WaitUntiltMetricHasValue] fetches the
    value and reports no error; it reports done exactly when the fetched value
    equals the expected one and the fetch had no error, or the expected value
    is 0 and the reported value is 0.  So with the target 0 a fetch that
    reports the value 0 ends the wait, with or without an error. *)
Theorem WaitUntiltMetricHasValue_func1_done
    (env : Env) (a : Awaitility.t) (family : string) (expectedValue : Float64.t)
    (labels : list string) (value0 : Float64.t) (s : State) :
  let fetched := metrics_GetMetricValue env (clock s) (Awaitility.RestConfig a)
                   (Awaitility.MetricsURL a) family labels in
  let value := fst fetched in
  let err := snd fetched in
  exists done : bool,
    fst (WaitUntiltMetricHasValue_func1 env a family expectedValue labels value0 s)
    = Done (value, (done, None))
    /\ (done = true
        <-> (Float64.eqb value expectedValue = true /\ err = None)
            \/ (Float64.eqb expectedValue Float64.zero = true
                /\ Float64.eqb value Float64.zero = true))
    /\ (Float64.eqb expectedValue Float64.zero = true ->
        Float64.eqb value Float64.zero = true -> done = true).
Proof.
  intros fetched value err.
  destruct (WaitUntiltMetricHasValue_func1_eq env a family expectedValue labels
              value0 s) as (done & Hrun & Hiff).
  exists done. split; [exact Hrun|]. split; [exact Hiff|].
  intros H0 Hv. apply Hiff. right. split; assumption.
Qed.

(** ** The record of the polls *)

Lemma keepsPolls_ret {A} (a : A) : keepsPolls (ret a).
Proof. intros s. reflexivity. Qed.

Lemma keepsPolls_failNow {A} : keepsPolls (@failNow A).
Proof. intros s. reflexivity. Qed.

Lemma keepsPolls_panic {A} : keepsPolls (@panic A).
Proof. intros s. reflexivity. Qed.

Lemma keepsPolls_request {A} (answer : nat -> A) : keepsPolls (request answer).
Proof. intros s. reflexivity. Qed.

Lemma keepsPolls_readBaseline m k : keepsPolls (readBaseline m k).
Proof. intros s. reflexivity. Qed.

Lemma keepsPolls_registerCleanup name : keepsPolls (registerCleanup name).
Proof. intros s. reflexivity. Qed.

Lemma keepsPolls_require_NoError err : keepsPolls (require_NoError err).
Proof. destruct err; intros s; reflexivity. Qed.

Lemma keepsPolls_require_True b : keepsPolls (require_True b).
Proof. destruct b; intros s; reflexivity. Qed.

Lemma keepsPolls_bind {A B} (m : Test A) (k : A -> Test B) :
  keepsPolls m -> (forall a, keepsPolls (k a)) -> keepsPolls (bind m k).
Proof.
  intros Hm Hk s. unfold bind. specialize (Hm s).
  destruct (m s) as [[x| |] s1]; simpl in *; try assumption.
  rewrite Hk. assumption.
Qed.

Ltac keeps_polls :=
  repeat first
    [ apply keepsPolls_ret | apply keepsPolls_failNow | apply keepsPolls_panic
    | apply keepsPolls_request | apply keepsPolls_readBaseline
    | apply keepsPolls_registerCleanup | apply keepsPolls_require_NoError
    | apply keepsPolls_require_True
    | match goal with H : context [keepsPolls] |- _ => apply H end
    | apply keepsPolls_bind; [|intros ?]
    | match goal with
      | |- keepsPolls (match ?x with _ => _ end) => destruct x
      | |- keepsPolls (let _ := _ in _) => cbv zeta
      end ].

Lemma keepsPolls_pollLoop {V} (condition : V -> Test (V * (bool * option error))) :
  (forall v, keepsPolls (condition v)) ->
  forall n v, keepsPolls (pollLoop n condition v).
Proof.
  intros Hc n. induction n as [|n IH]; intros v; simpl; keeps_polls.
Qed.

Lemma addsPoll_Poll {V} env interval timeout
    (condition : V -> Test (V * (bool * option error))) v :
  (forall v, keepsPolls (condition v)) ->
  addsPoll (Poll env interval timeout condition v) (interval, timeout).
Proof.
  intros Hc s. unfold Poll, bind, recordPoll.
  destruct (interval <=? 0)%Z; [reflexivity|].
  rewrite (keepsPolls_pollLoop condition Hc). reflexivity.
Qed.

Lemma addsPoll_bind {A B} (m : Test A) (k : A -> Test B) entry :
  addsPoll m entry -> (forall a, keepsPolls (k a)) -> addsPoll (bind m k) entry.
Proof.
  intros Hm Hk s. unfold bind. specialize (Hm s).
  destruct (m s) as [[x| |] s1]; simpl in *; try assumption.
  rewrite Hk. assumption.
Qed.

Lemma pollsOnlyWith_keeps {A} (m : Test A) entry :
  keepsPolls m -> pollsOnlyWith m entry.
Proof. intros Hm s. exists 0%nat. simpl. rewrite app_nil_r. apply Hm. Qed.

Lemma pollsOnlyWith_adds {A} (m : Test A) entry :
  addsPoll m entry -> pollsOnlyWith m entry.
Proof. intros Hm s. exists 1%nat. apply Hm. Qed.

Lemma pollsOnlyWith_bind {A B} (m : Test A) (k : A -> Test B) entry :
  pollsOnlyWith m entry -> (forall a, pollsOnlyWith (k a) entry) ->
  pollsOnlyWith (bind m k) entry.
Proof.
  intros Hm Hk s. unfold bind. destruct (Hm s) as [n Hn].
  destruct (m s) as [[x| |] s1]; simpl in *; eauto.
  destruct (Hk x s1) as [n' Hn']. exists (n + n')%nat.
  rewrite Hn', Hn, repeat_app, app_assoc. reflexivity.
Qed.

Section PollsOfTheWaits.

Variable env : Env.
Variable a : Awaitility.t.

Lemma keepsPolls_fetchMetricValue family labels :
  keepsPolls (fetchMetricValue env a family labels).
Proof. unfold fetchMetricValue. keeps_polls. Qed.

Lemma keepsPolls_baselineKey name labels : keepsPolls (baselineKey a name labels).
Proof. unfold baselineKey. keeps_polls. Qed.

Lemma keepsPolls_GetToolchainCluster clusterType namespace condition :
  keepsPolls (GetToolchainCluster a clusterType namespace condition).
Proof. unfold GetToolchainCluster. keeps_polls. Qed.

Ltac adds_poll :=
  first
    [ apply addsPoll_Poll; intros ?;
      cbv delta [WaitUntiltMetricHasValue_func1 WaitUntilMetricHasValueOrMore_func1
                 WaitUntilMetricHasValueOrLess_func1 WaitForService_func1
                 WaitForRouteToBeAvailable_func1
                 WaitForToolchainClusterWithCondition_func1
                 WaitForNamedToolchainClusterWithCondition_func1
                 WaitForToolchainCluster_func1 UpdateToolchainCluster_func1
                 GetMemoryUsage_func1 CreateNamespace_func1
                 WaitForDeploymentToGetReady_func1
                 fetchMetricValue GetToolchainCluster] beta;
      keeps_polls
    | apply addsPoll_bind; [adds_poll | intros ?; keeps_polls] ].

Lemma addsPoll_WaitUntiltMetricHasValue family expectedValue labels :
  addsPoll (WaitUntiltMetricHasValue env a family expectedValue labels)
           (Awaitility.RetryInterval a, Awaitility.Timeout a).
Proof. unfold WaitUntiltMetricHasValue. adds_poll. Qed.

Lemma addsPoll_WaitUntilMetricHasValueOrMore family expectedValue labels :
  addsPoll (WaitUntilMetricHasValueOrMore env a family expectedValue labels)
           (Awaitility.RetryInterval a, Awaitility.Timeout a).
Proof. unfold WaitUntilMetricHasValueOrMore. adds_poll. Qed.

Lemma addsPoll_WaitUntilMetricHasValueOrLess family expectedValue labels :
  addsPoll (WaitUntilMetricHasValueOrLess env a family expectedValue labels)
           (Awaitility.RetryInterval a, Awaitility.Timeout a).
Proof. unfold WaitUntilMetricHasValueOrLess. adds_poll. Qed.

Lemma addsPoll_WaitForService name :
  addsPoll (WaitForService env a name)
           (Awaitility.RetryInterval a, Awaitility.Timeout a).
Proof. unfold WaitForService. adds_poll. Qed.

Lemma addsPoll_WaitForRouteToBeAvailable ns name endpoint :
  addsPoll (WaitForRouteToBeAvailable env a ns name endpoint)
           (Awaitility.RetryInterval a, Awaitility.Timeout a).
Proof. unfold WaitForRouteToBeAvailable. adds_poll. Qed.

Lemma addsPoll_WaitForToolchainClusterWithCondition clusterType namespace condition :
  addsPoll (WaitForToolchainClusterWithCondition env a clusterType namespace condition)
           (Awaitility.RetryInterval a,
            match condition with
            | Some _ => ToolchainClusterConditionTimeout
            | None => Awaitility.Timeout a
            end).
Proof. unfold WaitForToolchainClusterWithCondition. adds_poll. Qed.

Lemma addsPoll_WaitForNamedToolchainClusterWithCondition name condition :
  addsPoll (WaitForNamedToolchainClusterWithCondition env a name condition)
           (Awaitility.RetryInterval a,
            match condition with
            | Some _ => ToolchainClusterConditionTimeout
            | None => Awaitility.Timeout a
            end).
Proof. unfold WaitForNamedToolchainClusterWithCondition. adds_poll. Qed.

Lemma addsPoll_WaitForToolchainCluster criteria :
  addsPoll (WaitForToolchainCluster env a criteria)
           (Awaitility.RetryInterval a, Awaitility.Timeout a).
Proof. unfold WaitForToolchainCluster. adds_poll. Qed.

Lemma addsPoll_UpdateToolchainCluster name modify :
  addsPoll (UpdateToolchainCluster env a name modify)
           (Awaitility.RetryInterval a, Awaitility.Timeout a).
Proof. unfold UpdateToolchainCluster. adds_poll. Qed.

Lemma addsPoll_GetMemoryUsage podname ns :
  addsPoll (GetMemoryUsage env a podname ns)
           (Awaitility.RetryInterval a, Awaitility.Timeout a).
Proof. unfold GetMemoryUsage. adds_poll. Qed.

Lemma addsPoll_WaitForDeploymentToGetReady name replicas criteria :
  addsPoll (WaitForDeploymentToGetReady env a name replicas criteria)
           (Awaitility.RetryInterval a, Duration.mul 6 (Awaitility.Timeout a)).
Proof. unfold WaitForDeploymentToGetReady. adds_poll. Qed.

End PollsOfTheWaits.

Section PollsOfTheCompositeWaits.

Variable env : Env.
Variable a : Awaitility.t.

Lemma pollsOnlyWith_WaitForMetricDelta family delta labels :
  pollsOnlyWith (WaitForMetricDelta env a family delta labels)
                (Awaitility.RetryInterval a, Awaitility.Timeout a).
Proof.
  unfold WaitForMetricDelta.
  apply pollsOnlyWith_bind;
    [apply pollsOnlyWith_keeps, keepsPolls_baselineKey|intros key].
  apply pollsOnlyWith_bind;
    [apply pollsOnlyWith_keeps, keepsPolls_readBaseline|intros baseline].
  apply pollsOnlyWith_adds, addsPoll_WaitUntiltMetricHasValue.
Qed.

Lemma pollsOnlyWith_WaitForMetricBaseline family labels :
  pollsOnlyWith (WaitForMetricBaseline env a family labels)
                (Awaitility.RetryInterval a, Awaitility.Timeout a).
Proof.
  unfold WaitForMetricBaseline.
  apply pollsOnlyWith_bind;
    [apply pollsOnlyWith_keeps, keepsPolls_baselineKey|intros key].
  apply pollsOnlyWith_bind;
    [apply pollsOnlyWith_keeps, keepsPolls_readBaseline|intros baseline].
  apply pollsOnlyWith_adds, addsPoll_WaitUntiltMetricHasValue.
Qed.

Lemma pollsOnlyWith_CreateNamespace name :
  pollsOnlyWith (CreateNamespace env a name)
                (Awaitility.RetryInterval a, Awaitility.Timeout a).
Proof.
  unfold CreateNamespace.
  apply pollsOnlyWith_bind;
    [apply pollsOnlyWith_keeps, keepsPolls_request|intros err].
  apply pollsOnlyWith_bind;
    [apply pollsOnlyWith_keeps, keepsPolls_require_NoError|intros _].
  apply pollsOnlyWith_adds.
  apply addsPoll_bind; [|intros r; keeps_polls].
  apply addsPoll_Poll. intros []. unfold CreateNamespace_func1. keeps_polls.
Qed.

Lemma pollsOnlyWith_SetupRouteForService serviceName endpoint :
  pollsOnlyWith (SetupRouteForService env a serviceName endpoint)
                (Awaitility.RetryInterval a, Awaitility.Timeout a).
Proof.
  unfold SetupRouteForService.
  apply pollsOnlyWith_bind;
    [apply pollsOnlyWith_adds, addsPoll_WaitForService|intros r].
  cbv zeta. destruct (snd r).
  { apply pollsOnlyWith_keeps. keeps_polls. }
  apply pollsOnlyWith_bind;
    [apply pollsOnlyWith_keeps, keepsPolls_request|intros g].
  destruct g as [route|err].
  { apply pollsOnlyWith_adds, addsPoll_WaitForRouteToBeAvailable. }
  apply pollsOnlyWith_bind;
    [apply pollsOnlyWith_keeps, keepsPolls_require_True|intros _].
  apply pollsOnlyWith_bind;
    [apply pollsOnlyWith_keeps, keepsPolls_request|intros c].
  destruct c.
  { apply pollsOnlyWith_keeps. keeps_polls. }
  apply pollsOnlyWith_adds, addsPoll_WaitForRouteToBeAvailable.
Qed.

End PollsOfTheCompositeWaits.

(** ** The deadlines of the waits *)

Lemma wrap_in_range z : Duration.in_range z -> Duration.wrap z = z.
Proof.
  unfold Duration.in_range, Duration.wrap. intros H.
  rewrite Z.mod_small; lia.
Qed.

(** C9. With a condition to check, both ToolchainCluster waits call the poll
    engine with the fixed timeout of 180 seconds, whatever timeout the waiter
    carries and whatever retry options specialised it. *)
Theorem ToolchainCluster_condition_waits_use_fixed_timeout
    (env : Env) (a : Awaitility.t) (options : list RetryOption)
    (clusterType namespace name : string)
    (condition : ToolchainClusterCondition.t) (s : State) :
  let a' := WithRetryOptions a options in
  polls (snd (WaitForToolchainClusterWithCondition env a' clusterType namespace
                (Some condition) s))
  = (polls s ++ [(Awaitility.RetryInterval a', ToolchainClusterConditionTimeout)])%list
  /\ polls (snd (WaitForNamedToolchainClusterWithCondition env a' name
                   (Some condition) s))
     = (polls s ++ [(Awaitility.RetryInterval a', ToolchainClusterConditionTimeout)])%list
  /\ ToolchainClusterConditionTimeout = (180 * 1000000000)%Z
  /\ (forall d : Duration.t,
        WaitForToolchainClusterWithCondition env
          (WithRetryOptions a [TimeoutOption d]) clusterType namespace
          (Some condition) s
        = WaitForToolchainClusterWithCondition env a clusterType namespace
            (Some condition) s
        /\ WaitForNamedToolchainClusterWithCondition env
             (WithRetryOptions a [TimeoutOption d]) name (Some condition) s
           = WaitForNamedToolchainClusterWithCondition env a name
               (Some condition) s).
Proof.
  intros a'. split; [|split; [|split]].
  - apply (addsPoll_WaitForToolchainClusterWithCondition env a' clusterType
             namespace (Some condition)).
  - apply (addsPoll_WaitForNamedToolchainClusterWithCondition env a' name
             (Some condition)).
  - reflexivity.
  - intros d. destruct a. split; reflexivity.
Qed.

(** C10. [WaitForDeploymentToGetReady] calls the poll engine with six times
    the timeout of the waiter, computed on [int64]: the product itself as
    long as it fits, which is then more than the timeout.  Every other wait of
    the waiter polls with its timeout as it is, the two condition waits with
    the fixed 180 seconds when they have a condition to check. *)
Theorem WaitForDeploymentToGetReady_polls_six_times_Timeout
    (env : Env) (a : Awaitility.t) :
  let interval := Awaitility.RetryInterval a in
  let timeout := Awaitility.Timeout a in
  (forall name replicas criteria,
      addsPoll (WaitForDeploymentToGetReady env a name replicas criteria)
               (interval, Duration.mul 6 timeout))
  /\ (Duration.in_range (6 * timeout) -> Duration.mul 6 timeout = (6 * timeout)%Z)
  /\ (Duration.in_range (6 * timeout) -> (0 < timeout)%Z ->
      (timeout < Duration.mul 6 timeout)%Z)
  /\ (forall name, addsPoll (WaitForService env a name) (interval, timeout))
  /\ (forall ns name endpoint,
        addsPoll (WaitForRouteToBeAvailable env a ns name endpoint)
                 (interval, timeout))
  /\ (forall family expectedValue labels,
        addsPoll (WaitUntiltMetricHasValue env a family expectedValue labels)
                 (interval, timeout)
        /\ addsPoll (WaitUntilMetricHasValueOrMore env a family expectedValue labels)
                    (interval, timeout)
        /\ addsPoll (WaitUntilMetricHasValueOrLess env a family expectedValue labels)
                    (interval, timeout))
  /\ (forall podname ns, addsPoll (GetMemoryUsage env a podname ns) (interval, timeout))
  /\ (forall criteria, addsPoll (WaitForToolchainCluster env a criteria)
                                (interval, timeout))
  /\ (forall name modify, addsPoll (UpdateToolchainCluster env a name modify)
                                   (interval, timeout))
  /\ (forall clusterType namespace name condition,
        let timeout' := match condition with
                        | Some _ => ToolchainClusterConditionTimeout
                        | None => timeout
                        end in
        addsPoll (WaitForToolchainClusterWithCondition env a clusterType namespace
                    condition) (interval, timeout')
        /\ addsPoll (WaitForNamedToolchainClusterWithCondition env a name condition)
                    (interval, timeout'))
  /\ (forall family delta labels,
        pollsOnlyWith (WaitForMetricDelta env a family delta labels)
                      (interval, timeout)
        /\ pollsOnlyWith (WaitForMetricBaseline env a family labels)
                         (interval, timeout))
  /\ (forall name, pollsOnlyWith (CreateNamespace env a name) (interval, timeout))
  /\ (forall serviceName endpoint,
        pollsOnlyWith (SetupRouteForService env a serviceName endpoint)
                      (interval, timeout)).
Proof.
  intros interval timeout.
  repeat lazymatch goal with
         | |- _ /\ _ => split
         | |- forall _, _ => intro
         | |- let _ := _ in _ => intro
         end;
    first
      [ apply addsPoll_WaitForDeploymentToGetReady
      | apply addsPoll_WaitForService
      | apply addsPoll_WaitForRouteToBeAvailable
      | apply addsPoll_WaitUntiltMetricHasValue
      | apply addsPoll_WaitUntilMetricHasValueOrMore
      | apply addsPoll_WaitUntilMetricHasValueOrLess
      | apply addsPoll_GetMemoryUsage
      | apply addsPoll_WaitForToolchainCluster
      | apply addsPoll_UpdateToolchainCluster
      | apply addsPoll_WaitForToolchainClusterWithCondition
      | apply addsPoll_WaitForNamedToolchainClusterWithCondition
      | apply pollsOnlyWith_WaitForMetricDelta
      | apply pollsOnlyWith_WaitForMetricBaseline
      | apply pollsOnlyWith_CreateNamespace
      | apply pollsOnlyWith_SetupRouteForService
      | idtac ].
  - now apply wrap_in_range.
  - unfold Duration.mul. rewrite wrap_in_range by assumption. lia.
Qed.

Lemma WaitForDeploymentToGetReady_polls_six_times_Timeout_witness :
  Duration.in_range (6 * Awaitility.Timeout exampleAwaitility)
  /\ (0 < Awaitility.Timeout exampleAwaitility)%Z
  /\ polls (snd (WaitForDeploymentToGetReady exampleEnv exampleAwaitility
                   "host-operator" 1 [] exampleState))
     = [(DefaultRetryInterval, (720 * Duration.Second)%Z)]
  /\ Duration.mul 6 (Awaitility.Timeout exampleAwaitility)
     = (6 * Awaitility.Timeout exampleAwaitility)%Z
  /\ (Awaitility.Timeout exampleAwaitility
      < Duration.mul 6 (Awaitility.Timeout exampleAwaitility))%Z.
Proof.
  assert (Hr : Duration.in_range (6 * Awaitility.Timeout exampleAwaitility))
    by (vm_compute; split; [discriminate|reflexivity]).
  assert (Hpos : (0 < Awaitility.Timeout exampleAwaitility)%Z) by reflexivity.
  destruct (WaitForDeploymentToGetReady_polls_six_times_Timeout
              exampleEnv exampleAwaitility) as (Hd & Hmul & Hlt & _).
  split; [exact Hr|]. split; [exact Hpos|].
  split; [exact (Hd "host-operator" 1%Z [] exampleState)|].
  split; [exact (Hmul Hr)|exact (Hlt Hr Hpos)].
Defined.

(** ** Baseline and delta *)






Lemma WaitForMetricDelta_eq env a family delta labels s :
  WaitForMetricDelta env a family delta labels s
  = if oddLength labels then (FailNow, s)
    else WaitUntiltMetricHasValue env a family
           (Float64.add
              (mapaccess (heap s) (Awaitility.baselineValues a)
                 (String.concat "," (family :: labels)))
              delta)
           labels s.
Proof.
  unfold WaitForMetricDelta, bind at 1. rewrite baselineKey_eq.
  destruct (oddLength labels); reflexivity.
Qed.

Lemma WaitForMetricBaseline_eq env a family labels s :
  WaitForMetricBaseline env a family labels s
  = if oddLength labels then (FailNow, s)
    else WaitUntiltMetricHasValue env a family
           (mapaccess (heap s) (Awaitility.baselineValues a)
              (String.concat "," (family :: labels)))
           labels s.
Proof.
  unfold WaitForMetricBaseline, bind at 1. rewrite baselineKey_eq.
  destruct (oddLength labels); reflexivity.
Qed.

(** C5. For an even number of label arguments [WaitForMetricDelta] is the
    wait of [WaitUntiltMetricHasValue] for the adjusted value
    [baseline + delta], where [baseline] is the value the store of the waiter
    holds for the key of the family and labels, and 0 when the store is nil or
    has no value for the key; a run of the condition of that wait reports done
    when the fetch has no error and the fetched value equals the adjusted
    value (or both are 0). *)
Theorem WaitForMetricDelta_adjusted
    (env : Env) (a : Awaitility.t) (family : string) (delta : Float64.t)
    (labels : list string) (s : State)
    (Heven : oddLength labels = false) :
  let key := String.concat "," (family :: labels) in
  let baseline := mapaccess (heap s) (Awaitility.baselineValues a) key in
  let adjustedValue := Float64.add baseline delta in
  fst (baselineKey a family labels s) = Done key
  /\ baseline
     = match Awaitility.baselineValues a with
       | None => Float64.zero
       | Some l =>
           match heap s !! l with
           | None => Float64.zero
           | Some values =>
               match values !! key with
               | None => Float64.zero
               | Some v => v
               end
           end
       end
  /\ WaitForMetricDelta env a family delta labels s
     = WaitUntiltMetricHasValue env a family adjustedValue labels s
  /\ forall value0 s',
       let fetched := metrics_GetMetricValue env (clock s')
                        (Awaitility.RestConfig a) (Awaitility.MetricsURL a)
                        family labels in
       exists done : bool,
         fst (WaitUntiltMetricHasValue_func1 env a family adjustedValue labels
                value0 s')
         = Done (fst fetched, (done, None))
         /\ (done = true
             <-> (Float64.eqb (fst fetched) adjustedValue = true
                  /\ snd fetched = None)
                 \/ (Float64.eqb adjustedValue Float64.zero = true
                     /\ Float64.eqb (fst fetched) Float64.zero = true)).
Proof.
  intros key baseline adjustedValue.
  split; [rewrite baselineKey_eq, Heven; reflexivity|].
  split.
  { unfold baseline, mapaccess.
    destruct (Awaitility.baselineValues a) as [l|]; [|reflexivity].
    destruct (heap s !! l) as [values|]; [|reflexivity]. simpl.
    destruct (values !! key); reflexivity. }
  split; [rewrite WaitForMetricDelta_eq, Heven; reflexivity|].
  intros value0 s'. apply WaitUntiltMetricHasValue_func1_eq.
Qed.

(** the baseline 5 was captured; the metric rises by one with each fetch and
    the wait for a delta of 2 ends with the fetch that reports 7 *)
Lemma WaitForMetricDelta_adjusted_witness :
  oddLength ["cluster_name"; "member-1"] = false
  /\ Float64.add
       (mapaccess (heap exampleState) (Awaitility.baselineValues exampleAwaitility)
          "sandbox_users,cluster_name,member-1")
       (Float64.of_Z 2)
     = Float64.of_Z 7
  /\ WaitForMetricDelta exampleEnv exampleAwaitility "sandbox_users"
       (Float64.of_Z 2) ["cluster_name"; "member-1"] exampleState
     = WaitUntiltMetricHasValue exampleEnv exampleAwaitility "sandbox_users"
         (Float64.of_Z 7) ["cluster_name"; "member-1"] exampleState
  /\ fst (WaitForMetricDelta exampleEnv exampleAwaitility "sandbox_users"
            (Float64.of_Z 2) ["cluster_name"; "member-1"] exampleState)
     = Done tt
  /\ clock (snd (WaitForMetricDelta exampleEnv exampleAwaitility "sandbox_users"
                   (Float64.of_Z 2) ["cluster_name"; "member-1"] exampleState))
     = 8%nat.
Proof.
  assert (Heven : oddLength ["cluster_name"; "member-1"] = false) by reflexivity.
  destruct (WaitForMetricDelta_adjusted exampleEnv exampleAwaitility
              "sandbox_users" (Float64.of_Z 2) ["cluster_name"; "member-1"]
              exampleState Heven) as (_ & _ & Hwait & _).
  split; [exact Heven|].
  split; [vm_compute; reflexivity|].
  split; [rewrite Hwait; vm_compute; reflexivity|].
  split; vm_compute; reflexivity.
Defined.


(** ** Errors of the condition and the deadline *)

Lemma pollLoop_step {V} n (condition : V -> Test (V * (bool * option error)))
    v s v' ok err s' :
  condition v s = (Done (v', (ok, err)), s') ->
  pollLoop n condition v s
  = match err with
    | Some e => (Done (v', Some e), s')
    | None =>
        if ok then (Done (v', None), s')
        else match n with
             | O => (Done (v', Some ErrWaitTimeout), s')
             | S n' => pollLoop n' condition v' s'
             end
    end.
Proof.
  intros Hc. destruct n; simpl; unfold bind; rewrite Hc; simpl;
    destruct err; try reflexivity; destruct ok; reflexivity.
Qed.

Lemma pollLoop_WaitForService_absent a name n : forall v s,
  (forall k, (clock s <= k)%nat ->
     exists msg, Client.GetService (Awaitility.Client a) k
                   (Awaitility.Namespace a) name = inr (ErrNotFound msg)) ->
  fst (pollLoop n (WaitForService_func1 a name) v s)
  = Done (Some Service.empty, Some ErrWaitTimeout)
  /\ clock (snd (pollLoop n (WaitForService_func1 a name) v s))
     = (clock s + S n)%nat.
Proof.
  induction n as [|n IH]; intros v s Habsent;
    destruct (Habsent (clock s) (Nat.le_refl _)) as [msg Hmsg].
  - erewrite pollLoop_step
      by (unfold WaitForService_func1, bind, request; rewrite Hmsg; reflexivity).
    simpl. split; [reflexivity|lia].
  - erewrite pollLoop_step
      by (unfold WaitForService_func1, bind, request; rewrite Hmsg; reflexivity).
    simpl.
    match goal with |- context [pollLoop n _ _ ?s1] =>
      destruct (IH (Some Service.empty) s1) as [Hr Hk]
    end.
    { simpl. intros k Hk. apply Habsent. lia. }
    rewrite Hr, Hk. simpl. split; [reflexivity|lia].
Qed.

(** C1, as the specification states it, fails.  The ToolchainCluster does not
    exist at the first run of the condition and exists from the second one on;
    the deadline is 1800 ticks away.  The wait ends with the not-found error
    after that single run, although the next run would have found the cluster
    and its condition. *)
Lemma not_found_ends_the_wait_counterexample :
  let wait := WaitForNamedToolchainClusterWithCondition exampleEnv exampleAwaitility
                "member-1" (Some ReadyToolchainCluster) exampleState in
  Client.GetToolchainCluster exampleClient 0
    (Awaitility.Namespace exampleAwaitility) "member-1"
  = inr (ErrNotFound "toolchaincluster not found")
  /\ ticks exampleEnv (Awaitility.RetryInterval exampleAwaitility)
       ToolchainClusterConditionTimeout = 1800%nat
  /\ fst wait
     = Done (ToolchainCluster.empty, Some (ErrNotFound "toolchaincluster not found"))
  /\ clock (snd wait) = 1%nat
  /\ fst (pollLoop 1799
            (WaitForNamedToolchainClusterWithCondition_func1 exampleAwaitility
               "member-1" (Some ReadyToolchainCluster))
            ToolchainCluster.empty (snd wait))
     = Done (exampleCluster "member-1", None).
Proof. repeat split; vm_compute; reflexivity. Qed.

(** C1, amended.  The poll engine keeps polling after a run of the condition
    that reports (not done, no error), until the deadline, and then ends with
    its timeout error; a run that reports an error ends the poll at once with
    that error.  A wait keeps polling while its target does not exist where
    its condition turns the not-found error into (not done, no error), as the
    condition of [WaitForService] does: while the service is not found that
    wait runs up to the deadline, and another error of the fetch ends it.
    (The interval and the timeout are positive: the ticker panics on another
    interval, and a zero timeout means no deadline to the library.) *)
Theorem Poll_ends_on_error_or_deadline
    (env : Env) (a : Awaitility.t) (name : string) (s : State)
    (Hinterval : (0 < Awaitility.RetryInterval a)%Z)
    (Htimeout : (0 < Awaitility.Timeout a)%Z)
    (Habsent : forall k, (clock s <= k)%nat ->
       exists msg, Client.GetService (Awaitility.Client a) k
                     (Awaitility.Namespace a) name = inr (ErrNotFound msg)) :
  (forall (V : Type) (n : nat) (condition : V -> Test (V * (bool * option error)))
          (v v' : V) (ok : bool) (err : option error) (s0 s' : State),
      condition v s0 = (Done (v', (ok, err)), s') ->
      pollLoop n condition v s0
      = match err with
        | Some e => (Done (v', Some e), s')
        | None =>
            if ok then (Done (v', None), s')
            else match n with
                 | O => (Done (v', Some ErrWaitTimeout), s')
                 | S n' => pollLoop n' condition v' s'
                 end
        end)
  /\ fst (WaitForService env a name s) = Done (Service.empty, Some ErrWaitTimeout)
  /\ clock (snd (WaitForService env a name s))
     = (clock s + S (ticks env (Awaitility.RetryInterval a) (Awaitility.Timeout a)))%nat
  /\ (forall (err : error) (s0 : State),
        IsNotFound err = false ->
        Client.GetService (Awaitility.Client a) (clock s0)
          (Awaitility.Namespace a) name = inr err ->
        fst (WaitForService env a name s0) = Done (Service.empty, Some err)
        /\ clock (snd (WaitForService env a name s0)) = S (clock s0)).
Proof.
  split; [intros; now apply pollLoop_step|].
  assert (Hpos : (Awaitility.RetryInterval a <=? 0)%Z = false) by lia.
  assert (Hrun : forall s0,
            WaitForService env a name s0
            = let r := pollLoop (ticks env (Awaitility.RetryInterval a)
                                   (Awaitility.Timeout a))
                         (WaitForService_func1 a name) None
                         {| clock := clock s0;
                            polls := polls s0 ++ [(Awaitility.RetryInterval a,
                                                   Awaitility.Timeout a)];
                            heap := heap s0; cleanups := cleanups s0 |} in
              match fst r with
              | Done (Some metricsSvc, err) => (Done (metricsSvc, err), snd r)
              | Done (None, _) => (Panic, snd r)
              | FailNow => (FailNow, snd r)
              | Panic => (Panic, snd r)
              end).
  { intros s0. unfold WaitForService, Poll, bind, recordPoll. rewrite Hpos.
    cbv zeta. destruct (pollLoop _ _ _ _) as [[[[svc|] err]| |] s1]; reflexivity. }
  split; [|split].
  - rewrite Hrun. cbv zeta.
    destruct (pollLoop_WaitForService_absent a name
                (ticks env (Awaitility.RetryInterval a) (Awaitility.Timeout a))
                None
                {| clock := clock s;
                   polls := polls s ++ [(Awaitility.RetryInterval a,
                                         Awaitility.Timeout a)];
                   heap := heap s; cleanups := cleanups s |} Habsent)
      as [Hr _].
    rewrite Hr. reflexivity.
  - rewrite Hrun. cbv zeta.
    destruct (pollLoop_WaitForService_absent a name
                (ticks env (Awaitility.RetryInterval a) (Awaitility.Timeout a))
                None
                {| clock := clock s;
                   polls := polls s ++ [(Awaitility.RetryInterval a,
                                         Awaitility.Timeout a)];
                   heap := heap s; cleanups := cleanups s |} Habsent)
      as [Hr Hk].
    rewrite Hr. exact Hk.
  - intros err s0 Hnf Hget. rewrite Hrun. cbv zeta.
    erewrite pollLoop_step
      by (unfold WaitForService_func1, bind, request; simpl; rewrite Hget, Hnf;
          reflexivity).
    simpl. split; reflexivity.
Qed.

Lemma Poll_ends_on_error_or_deadline_witness :
  (0 < Awaitility.RetryInterval absentAwaitility)%Z
  /\ (0 < Awaitility.Timeout absentAwaitility)%Z
  /\ fst (WaitForService exampleEnv absentAwaitility "registration-service"
            exampleState)
     = Done (Service.empty, Some ErrWaitTimeout)
  /\ clock (snd (WaitForService exampleEnv absentAwaitility "registration-service"
                   exampleState))
     = 1201%nat.
Proof.
  assert (Hinterval : (0 < Awaitility.RetryInterval absentAwaitility)%Z)
    by reflexivity.
  assert (Htimeout : (0 < Awaitility.Timeout absentAwaitility)%Z) by reflexivity.
  assert (Habsent : forall k, (clock exampleState <= k)%nat ->
            exists msg, Client.GetService (Awaitility.Client absentAwaitility) k
                          (Awaitility.Namespace absentAwaitility)
                          "registration-service" = inr (ErrNotFound msg))
    by (intros k _; exists "not found"; reflexivity).
  destruct (Poll_ends_on_error_or_deadline exampleEnv absentAwaitility
              "registration-service" exampleState Hinterval Htimeout Habsent)
    as (_ & Hr & Hk & _).
  split; [exact Hinterval|]. split; [exact Htimeout|].
  split; [exact Hr|exact Hk].
Defined.

(** ** Label arguments that are not pairs *)

Lemma odd_labels_fail_at_once env a family delta labels s :
  oddLength labels = true ->
  WaitForMetricDelta env a family delta labels s = (FailNow, s)
  /\ WaitForMetricBaseline env a family labels s = (FailNow, s)
  /\ GetMetricValueOrZero env a family labels s = (FailNow, s).
Proof.
  intros Hodd.
  rewrite WaitForMetricDelta_eq, WaitForMetricBaseline_eq, Hodd.
  unfold GetMetricValueOrZero, bind. rewrite Hodd. repeat split.
Qed.

(** C4 does not hold of [WaitUntiltMetricHasValue].  The function does not
    look at the number of its label arguments: whatever they are it calls the
    poll engine.  Called with the single label argument "cluster_name" it
    polls up to the deadline, 1201 fetches, and fails only then, where
    [GetMetricValueOrZero], [WaitForMetricDelta] and [WaitForMetricBaseline]
    fail at once, before any fetch and any poll. *)
Theorem WaitUntiltMetricHasValue_polls_with_odd_labels :
  let labels := ["cluster_name"] in
  let wait := WaitUntiltMetricHasValue exampleEnv exampleAwaitility
                "sandbox_users" (Float64.of_Z 1) labels exampleState in
  oddLength labels = true
  /\ polls exampleState = []
  /\ polls (snd wait) = [(DefaultRetryInterval, DefaultTimeout)]
  /\ clock (snd wait) = 1201%nat
  /\ fst wait = FailNow
  /\ GetMetricValueOrZero exampleEnv exampleAwaitility "sandbox_users" labels
       exampleState = (FailNow, exampleState)
  /\ WaitForMetricDelta exampleEnv exampleAwaitility "sandbox_users"
       (Float64.of_Z 1) labels exampleState = (FailNow, exampleState)
  /\ WaitForMetricBaseline exampleEnv exampleAwaitility "sandbox_users" labels
       exampleState = (FailNow, exampleState)
  /\ (forall env a family expectedValue labels',
        addsPoll (WaitUntiltMetricHasValue env a family expectedValue labels')
                 (Awaitility.RetryInterval a, Awaitility.Timeout a)).
Proof.
  intros labels wait.
  destruct (odd_labels_fail_at_once exampleEnv exampleAwaitility "sandbox_users"
              (Float64.of_Z 1) labels exampleState eq_refl) as (Hd & Hb & Hz).
  split; [reflexivity|]. split; [reflexivity|].
  split; [vm_compute; reflexivity|]. split; [vm_compute; reflexivity|].
  split; [vm_compute; reflexivity|].
  split; [exact Hz|]. split; [exact Hd|]. split; [exact Hb|].
  intros. apply addsPoll_WaitUntiltMetricHasValue.
Qed.

(** * Further properties of the package *)

(** ** What a poll can end with *)

(** From what one run of the condition can report to what the poll can end
    with: [I] is kept by the captured variables while the poll goes on, [Q]
    holds of every result the poll returns, and the poll ends by [FailNow]
    only where [F] holds.  A condition that does not panic gives a poll that
    does not panic. *)
Lemma pollLoop_outcome {V} (I : V -> Prop) (Q : V * option error -> Prop)
    (F : Prop) (condition : V -> Test (V * (bool * option error))) :
  (forall v s, I v ->
     match fst (condition v s) with
     | Done (v', (_, Some e)) => Q (v', Some e)
     | Done (v', (true, None)) => Q (v', None)
     | Done (v', (false, None)) => I v' /\ Q (v', Some ErrWaitTimeout)
     | FailNow => F
     | Panic => False
     end) ->
  forall n v s, I v ->
    match fst (pollLoop n condition v s) with
    | Done r => Q r
    | FailNow => F
    | Panic => False
    end.
Proof.
  intros Hc n. induction n as [|n IH]; intros v s Hv; simpl; unfold bind;
    specialize (Hc v s Hv);
    destruct (condition v s) as [[[v' [ok [e|]]]| |] s1]; simpl in *;
    try assumption; destruct ok; simpl; try tauto.
  apply IH. tauto.
Qed.

Lemma Poll_outcome {V} env interval timeout (I : V -> Prop)
    (Q : V * option error -> Prop) (F : Prop)
    (condition : V -> Test (V * (bool * option error))) v s :
  (forall v s, I v ->
     match fst (condition v s) with
     | Done (v', (_, Some e)) => Q (v', Some e)
     | Done (v', (true, None)) => Q (v', None)
     | Done (v', (false, None)) => I v' /\ Q (v', Some ErrWaitTimeout)
     | FailNow => F
     | Panic => False
     end) ->
  I v ->
  match fst (Poll env interval timeout condition v s) with
  | Done r => Q r
  | FailNow => F
  | Panic => (interval <= 0)%Z
  end.
Proof.
  intros Hc Hv. unfold Poll, bind, recordPoll.
  destruct (interval <=? 0)%Z eqn:Hi; [simpl; lia|].
  match goal with |- context [pollLoop ?n _ _ ?s1] =>
    pose proof (pollLoop_outcome I Q F condition Hc n v s1 Hv) as H;
    destruct (pollLoop n condition v s1) as [[r| |] s2]
  end; simpl in *; tauto.
Qed.

(** ** Cluster conditions *)

(** X1. A nil condition is contained in every list.  Otherwise only the
    first condition of the expected type counts: the answer is whether its
    status is the expected one, and it is no when the list has no condition
    of that type; later conditions of the same type are not looked at. *)
Theorem containsClusterCondition_first_of_type
    (conditions : list ToolchainClusterCondition.t)
    (expected : ToolchainClusterCondition.t) :
  containsClusterCondition conditions None = true
  /\ containsClusterCondition conditions (Some expected)
     = match find (fun c => String.eqb (ToolchainClusterCondition.Type_ c)
                              (ToolchainClusterCondition.Type_ expected))
                  conditions with
       | Some c => String.eqb (ToolchainClusterCondition.Status expected)
                     (ToolchainClusterCondition.Status c)
       | None => false
       end
  /\ forall first rest,
       ToolchainClusterCondition.Type_ first
       = ToolchainClusterCondition.Type_ expected ->
       containsClusterCondition (first :: rest) (Some expected)
       = containsClusterCondition [first] (Some expected).
Proof.
  split; [destruct conditions; reflexivity|]. split.
  - induction conditions as [|c rest IH]; simpl; [reflexivity|].
    destruct (String.eqb _ _); [reflexivity|exact IH].
  - intros first rest Htype. simpl. rewrite Htype, String.eqb_refl. reflexivity.
Qed.

Lemma containsClusterCondition_first_of_type_witness :
  let ready := ReadyToolchainCluster in
  let notReady := {| ToolchainClusterCondition.Type_ := "Ready";
                     ToolchainClusterCondition.Status := "False" |} in
  containsClusterCondition [notReady; ready] (Some ready)
  = containsClusterCondition [notReady] (Some ready)
  /\ containsClusterCondition [notReady; ready] (Some ready) = false.
Proof.
  intros ready notReady. split; [|reflexivity].
  destruct (containsClusterCondition_first_of_type [notReady; ready] ready)
    as (_ & _ & H).
  apply H. reflexivity.
Defined.

Lemma GetToolchainCluster_run
    (a : Awaitility.t) (clusterType namespace : string)
    (condition : option ToolchainClusterCondition.t) (s : State) :
  let answer := Client.ListToolchainClusters (Awaitility.Client a) (clock s)
                  (Awaitility.Namespace a)
                  [("namespace", namespace); ("type", clusterType)] in
  let has := fun cl => containsClusterCondition
                         (ToolchainCluster.Status_Conditions cl) condition in
  clock (snd (GetToolchainCluster a clusterType namespace condition s))
  = S (clock s)
  /\ match fst (GetToolchainCluster a clusterType namespace condition s) with
     | Done (c, true, err) =>
         err = None /\ has c = true
         /\ exists items, answer = inl items /\ In c items
     | Done (c, false, Some e) => c = ToolchainCluster.empty /\ answer = inr e
     | Done (c, false, None) =>
         c = ToolchainCluster.empty
         /\ exists items, answer = inl items
                          /\ forall cl, In cl items -> has cl = false
     | FailNow | Panic => False
     end.
Proof.
  intros answer has. unfold GetToolchainCluster, bind, request. simpl.
  fold answer. destruct answer as [items|e]; simpl.
  - destruct (find _ items) as [cl|] eqn:Hfind; simpl.
    + split; [reflexivity|].
      apply find_some in Hfind as [Hin Hhas]. eauto.
    + split; [reflexivity|]. split; [reflexivity|].
      exists items. split; [reflexivity|].
      intros cl Hin. exact (find_none _ _ Hfind cl Hin).
  - auto.
Qed.

(** X2. [GetToolchainCluster] makes one request.  When it reports ready it
    reports no error and the cluster is one of the listed ones that contains
    the condition; otherwise the cluster is the empty one, an error is the
    error of the list request, and no error means that no listed cluster
    contains the condition. *)
Theorem GetToolchainCluster_ready_or_empty
    (a : Awaitility.t) (clusterType namespace : string)
    (condition : option ToolchainClusterCondition.t) (s : State) :
  let answer := Client.ListToolchainClusters (Awaitility.Client a) (clock s)
                  (Awaitility.Namespace a)
                  [("namespace", namespace); ("type", clusterType)] in
  let has := fun cl => containsClusterCondition
                         (ToolchainCluster.Status_Conditions cl) condition in
  clock (snd (GetToolchainCluster a clusterType namespace condition s))
  = S (clock s)
  /\ match fst (GetToolchainCluster a clusterType namespace condition s) with
     | Done (c, true, err) =>
         err = None /\ has c = true
         /\ exists items, answer = inl items /\ In c items
     | Done (c, false, Some e) => c = ToolchainCluster.empty /\ answer = inr e
     | Done (c, false, None) =>
         c = ToolchainCluster.empty
         /\ exists items, answer = inl items
                          /\ forall cl, In cl items -> has cl = false
     | FailNow | Panic => False
     end.
Proof. apply GetToolchainCluster_run. Qed.

(** ** What the ToolchainCluster waits return *)

(** X3. [WaitForToolchainClusterWithCondition] never fails the test, and
    panics only through a ticker without a positive interval.  Without an
    error the cluster it returns contains the condition; with an error, the
    timeout included, it returns the empty cluster. *)
Theorem WaitForToolchainClusterWithCondition_outcome
    (env : Env) (a : Awaitility.t) (clusterType namespace : string)
    (condition : option ToolchainClusterCondition.t) (s : State) :
  match fst (WaitForToolchainClusterWithCondition env a clusterType namespace
               condition s) with
  | Done (c, None) =>
      containsClusterCondition (ToolchainCluster.Status_Conditions c) condition
      = true
  | Done (c, Some _) => c = ToolchainCluster.empty
  | FailNow => False
  | Panic => (Awaitility.RetryInterval a <= 0)%Z
  end.
Proof.
  unfold WaitForToolchainClusterWithCondition.
  apply (Poll_outcome env _ _ (fun _ => True)
           (fun r => match r with
                     | (c, None) =>
                         containsClusterCondition
                           (ToolchainCluster.Status_Conditions c) condition = true
                     | (c, Some _) => c = ToolchainCluster.empty
                     end) False); [|exact Logic.I].
  intros v s0 _. unfold WaitForToolchainClusterWithCondition_func1, bind.
  pose proof (GetToolchainCluster_run a clusterType namespace
                condition s0) as [_ H].
  destruct (GetToolchainCluster a clusterType namespace condition s0)
    as [[[[c ready] err]| |] s1]; simpl in *; try contradiction.
  destruct ready.
  - destruct H as (-> & Hhas & _). exact Hhas.
  - destruct err; destruct H as [-> _]; simpl; auto.
Qed.

(** X4. [WaitForNamedToolchainClusterWithCondition] never fails the test.
    Without an error the cluster it returns contains the condition; with an
    error it returns the empty cluster (the fetch failed) or the cluster it
    fetched last, which does not contain the condition (the deadline). *)
Theorem WaitForNamedToolchainClusterWithCondition_outcome
    (env : Env) (a : Awaitility.t) (name : string)
    (condition : option ToolchainClusterCondition.t) (s : State) :
  match fst (WaitForNamedToolchainClusterWithCondition env a name condition s) with
  | Done (c, None) =>
      containsClusterCondition (ToolchainCluster.Status_Conditions c) condition
      = true
  | Done (c, Some _) =>
      c = ToolchainCluster.empty
      \/ containsClusterCondition (ToolchainCluster.Status_Conditions c) condition
         = false
  | FailNow => False
  | Panic => (Awaitility.RetryInterval a <= 0)%Z
  end.
Proof.
  unfold WaitForNamedToolchainClusterWithCondition.
  apply (Poll_outcome env _ _ (fun _ => True)
           (fun r => match r with
                     | (c, None) =>
                         containsClusterCondition
                           (ToolchainCluster.Status_Conditions c) condition = true
                     | (c, Some _) =>
                         c = ToolchainCluster.empty
                         \/ containsClusterCondition
                              (ToolchainCluster.Status_Conditions c) condition
                            = false
                     end) False); [|exact Logic.I].
  intros v s0 _.
  unfold WaitForNamedToolchainClusterWithCondition_func1, bind, request. simpl.
  destruct (Client.GetToolchainCluster _ _ _ _) as [c|e]; simpl; [|auto].
  destruct (containsClusterCondition _ _) eqn:Hc; simpl; auto.
Qed.

(** X5. [WaitForToolchainCluster] returns a cluster exactly when it returns
    no error, and that cluster matches every criterion; it never fails the
    test. *)
Theorem WaitForToolchainCluster_outcome
    (env : Env) (a : Awaitility.t) (criteria : list ToolchainClusterWaitCriterion)
    (s : State) :
  match fst (WaitForToolchainCluster env a criteria s) with
  | Done (Some cl, None) => Forall (fun c => Match c cl = true) criteria
  | Done (None, Some _) => True
  | Done (Some _, Some _) | Done (None, None) | FailNow => False
  | Panic => (Awaitility.RetryInterval a <= 0)%Z
  end.
Proof.
  unfold WaitForToolchainCluster.
  apply (Poll_outcome env _ _ (fun v => v = None)
           (fun r => match r with
                     | (Some cl, None) => Forall (fun c => Match c cl = true) criteria
                     | (None, Some _) => True
                     | _ => False
                     end) False); [|reflexivity].
  intros v s0 ->.
  unfold WaitForToolchainCluster_func1, bind, request. simpl.
  destruct (Client.ListToolchainClusters _ _ _ _) as [items|e]; simpl; [|auto].
  destruct (find _ items) as [cl|] eqn:Hfind; simpl; [|auto].
  apply find_some in Hfind as [_ Hm].
  rewrite matchToolchainClusterWaitCriterion_forallb, forallb_forall in Hm.
  apply List.Forall_forall. exact Hm.
Qed.


(** ** What the other waits return *)

(** X7. [WaitForService] never fails the test and never dereferences the nil
    pointer: it panics only through a ticker without a positive interval.  An
    error it returns is never a not-found error, and with an error the service
    it returns is the empty one. *)
Theorem WaitForService_outcome
    (env : Env) (a : Awaitility.t) (name : string) (s : State) :
  match fst (WaitForService env a name s) with
  | Done (_, None) => True
  | Done (metricsSvc, Some err) =>
      metricsSvc = Service.empty /\ IsNotFound err = false
  | FailNow => False
  | Panic => (Awaitility.RetryInterval a <= 0)%Z
  end.
Proof.
  assert (Hpoll :
    match fst (Poll env (Awaitility.RetryInterval a) (Awaitility.Timeout a)
                 (WaitForService_func1 a name) None s) with
    | Done (Some _, None) => True
    | Done (Some svc, Some err) => svc = Service.empty /\ IsNotFound err = false
    | Done (None, _) | FailNow => False
    | Panic => (Awaitility.RetryInterval a <= 0)%Z
    end).
  { apply (Poll_outcome env _ _ (fun _ => True)
             (fun r => match r with
                       | (Some _, None) => True
                       | (Some svc, Some err) =>
                           svc = Service.empty /\ IsNotFound err = false
                       | (None, _) => False
                       end) False); [|exact Logic.I].
    intros v s0 _. unfold WaitForService_func1, bind, request. simpl.
    destruct (Client.GetService _ _ _ _) as [svc|e]; simpl; [auto|].
    destruct (IsNotFound e) eqn:Hnf; simpl; auto. }
  unfold WaitForService, bind at 1.
  destruct (Poll env _ _ _ None s) as [[[[svc|] [err|]]| |] s1]; simpl in *;
    solve [assumption | contradiction].
Qed.

(** X8. [WaitForRouteToBeAvailable] never fails the test, and the route it
    returns without an error has an ingress with a host that is not empty. *)
Theorem WaitForRouteToBeAvailable_outcome
    (env : Env) (a : Awaitility.t) (ns name endpoint : string) (s : State) :
  match fst (WaitForRouteToBeAvailable env a ns name endpoint s) with
  | Done (route, None) =>
      exists host rest, Route.Status_Ingress route = host :: rest /\ host <> ""
  | Done (_, Some _) => True
  | FailNow => False
  | Panic => (Awaitility.RetryInterval a <= 0)%Z
  end.
Proof.
  unfold WaitForRouteToBeAvailable.
  apply (Poll_outcome env _ _ (fun _ => True)
           (fun r => match r with
                     | (route, None) =>
                         exists host rest,
                           Route.Status_Ingress route = host :: rest /\ host <> ""
                     | (_, Some _) => True
                     end) False); [|exact Logic.I].
  intros v s0 _.
  unfold WaitForRouteToBeAvailable_func1, bind, request. simpl.
  destruct (Client.GetRoute _ _ _ _) as [route|e]; simpl;
    [|destruct (IsNotFound e); simpl; auto].
  destruct (Route.Status_Ingress route) as [|host rest] eqn:Hingress; simpl; [auto|].
  destruct (String.eqb host "") eqn:Hhost; simpl; [auto|].
  destruct (http_NewRequest env _); simpl; [auto|].
  destruct (http_Do env _ _ _ _) as [code|e]; simpl.
  - destruct (code =? StatusOK)%Z; simpl; [|auto].
    exists host, rest. split; [assumption|].
    intros ->. discriminate.
  - destruct e; simpl; auto.
Qed.


Lemma allCriteriaMatch_Forall deployment criteria :
  allCriteriaMatch deployment criteria = true
  <-> Forall (fun criteriaMatch : DeploymentCriteria =>
                criteriaMatch deployment = true) criteria.
Proof.
  induction criteria as [|c rest IH]; simpl.
  - split; [constructor|reflexivity].
  - destruct (c deployment) eqn:Hc; simpl.
    + rewrite IH. split; [intros H; constructor; assumption|].
      intros H. inversion H; assumption.
    + split; [discriminate|]. intros H. inversion H; congruence.
Qed.

(** X11. The deployment [WaitForDeploymentToGetReady] returns has the wanted
    number of available replicas and matches every criterion of the call;
    the function panics only through a ticker without a positive interval
    (it may fail the test: on the deadline and on a failed fetch). *)
Theorem WaitForDeploymentToGetReady_outcome
    (env : Env) (a : Awaitility.t) (name : string) (replicas : Z)
    (criteria : list DeploymentCriteria) (s : State) :
  match fst (WaitForDeploymentToGetReady env a name replicas criteria s) with
  | Done deployment =>
      Deployment.Status_AvailableReplicas deployment = replicas
      /\ Forall (fun criteriaMatch : DeploymentCriteria =>
                   criteriaMatch deployment = true) criteria
  | FailNow => True
  | Panic => (Awaitility.RetryInterval a <= 0)%Z
  end.
Proof.
  assert (Hpoll :
    match fst (Poll env (Awaitility.RetryInterval a)
                 (Duration.mul 6 (Awaitility.Timeout a))
                 (WaitForDeploymentToGetReady_func1 env a name replicas criteria)
                 Deployment.empty s) with
    | Done (d, None) =>
        Deployment.Status_AvailableReplicas d = replicas
        /\ Forall (fun criteriaMatch : DeploymentCriteria =>
                     criteriaMatch d = true) criteria
    | Done (_, Some _) | FailNow => True
    | Panic => (Awaitility.RetryInterval a <= 0)%Z
    end).
  { apply (Poll_outcome env _ _ (fun _ => True)
             (fun r => match r with
                       | (d, None) =>
                           Deployment.Status_AvailableReplicas d = replicas
                           /\ Forall (fun criteriaMatch : DeploymentCriteria =>
                                        criteriaMatch d = true) criteria
                       | (_, Some _) => True
                       end) True); [|exact Logic.I].
    intros v s0 _. unfold WaitForDeploymentToGetReady_func1, bind, request. simpl.
    destruct (status_ValidateComponentConditionReady env _); simpl; [auto|].
    destruct (Client.GetDeployment _ _ _ _) as [d|e]; simpl; [|auto].
    destruct (Deployment.Status_AvailableReplicas d =? replicas)%Z eqn:Hrep;
      simpl; [|auto].
    destruct (Client.ListPods _ _ _ _) as [pods|e]; simpl; [|auto].
    destruct (Z.of_nat (length pods) =? replicas)%Z; simpl; [|auto].
    destruct (existsb _ pods); simpl; [auto|].
    destruct (allCriteriaMatch d criteria) eqn:Hall; simpl; [|auto].
    split; [lia|]. apply allCriteriaMatch_Forall. exact Hall. }
  unfold WaitForDeploymentToGetReady, bind.
  destruct (Poll env _ _ _ Deployment.empty s) as [[[d [err|]]| |] s1];
    simpl in *; auto.
Qed.

(** ** The store of the test *)

Lemma keepsStore_ret {A} (x : A) : keepsStore (ret x).
Proof. intros s. split; reflexivity. Qed.

Lemma keepsStore_failNow {A} : keepsStore (@failNow A).
Proof. intros s. split; reflexivity. Qed.

Lemma keepsStore_panic {A} : keepsStore (@panic A).
Proof. intros s. split; reflexivity. Qed.

Lemma keepsStore_request {A} (answer : nat -> A) : keepsStore (request answer).
Proof. intros s. split; reflexivity. Qed.

Lemma keepsStore_readBaseline m k : keepsStore (readBaseline m k).
Proof. intros s. split; reflexivity. Qed.

Lemma keepsStore_recordPoll interval timeout :
  keepsStore (recordPoll interval timeout).
Proof. intros s. split; reflexivity. Qed.

Lemma keepsStore_require_NoError err : keepsStore (require_NoError err).
Proof. destruct err; intros s; split; reflexivity. Qed.

Lemma keepsStore_require_True b : keepsStore (require_True b).
Proof. destruct b; intros s; split; reflexivity. Qed.

Lemma keepsStore_bind {A B} (m : Test A) (k : A -> Test B) :
  keepsStore m -> (forall x, keepsStore (k x)) -> keepsStore (bind m k).
Proof.
  intros Hm Hk s. unfold bind. destruct (Hm s) as [Hh Hc].
  destruct (m s) as [[x| |] s1]; simpl in *; try (split; assumption).
  destruct (Hk x s1) as [Hh' Hc']. split; congruence.
Qed.

Ltac keeps_store :=
  repeat first
    [ apply keepsStore_ret | apply keepsStore_failNow | apply keepsStore_panic
    | apply keepsStore_request | apply keepsStore_readBaseline
    | apply keepsStore_recordPoll | apply keepsStore_require_NoError
    | apply keepsStore_require_True
    | match goal with H : context [keepsStore] |- _ => apply H end
    | apply keepsStore_bind; [|intros ?]
    | match goal with
      | |- keepsStore (match ?x with _ => _ end) => destruct x
      | |- keepsStore (let _ := _ in _) => cbv zeta
      end ].

Lemma keepsStore_pollLoop {V} (condition : V -> Test (V * (bool * option error))) :
  (forall v, keepsStore (condition v)) ->
  forall n v, keepsStore (pollLoop n condition v).
Proof.
  intros Hc n. induction n as [|n IH]; intros v; simpl; keeps_store.
Qed.

Lemma keepsStore_Poll {V} env interval timeout
    (condition : V -> Test (V * (bool * option error))) v :
  (forall v, keepsStore (condition v)) ->
  keepsStore (Poll env interval timeout condition v).
Proof.
  intros Hc. unfold Poll. keeps_store. now apply keepsStore_pollLoop.
Qed.

Lemma keepsStore_WaitUntiltMetricHasValue env a family expectedValue labels :
  keepsStore (WaitUntiltMetricHasValue env a family expectedValue labels).
Proof.
  unfold WaitUntiltMetricHasValue.
  apply keepsStore_bind; [|intros; keeps_store].
  apply keepsStore_Poll. intros v.
  unfold WaitUntiltMetricHasValue_func1, fetchMetricValue. keeps_store.
Qed.

(** X10. [CreateNamespace] registers the deletion of the namespace exactly
    when it ends normally: when the creation or the wait for the active phase
    fails the test, or the poll panics, nothing is registered.  It never
    writes a baseline map. *)
Theorem CreateNamespace_registers_cleanup_on_success
    (env : Env) (a : Awaitility.t) (name : string) (s : State) :
  heap (snd (CreateNamespace env a name s)) = heap s
  /\ cleanups (snd (CreateNamespace env a name s))
     = match fst (CreateNamespace env a name s) with
       | Done _ => (cleanups s ++ [name])%list
       | FailNow | Panic => cleanups s
       end.
Proof.
  unfold CreateNamespace, bind, request. simpl.
  destruct (Client.CreateNamespace _ _ _); simpl; [split; reflexivity|].
  match goal with |- context [Poll env ?i ?t ?c ?v ?s1] =>
    destruct (keepsStore_Poll env i t c v) with (s := s1) as [Hh Hc];
    [intros []; unfold CreateNamespace_func1; keeps_store|];
    destruct (Poll env i t c v s1) as [[[u [err|]]| |] s2]
  end; simpl in *; rewrite ?Hh, ?Hc; split; reflexivity.
Qed.

(** X16. The metric operations read the baseline store and never write it,
    and they register no cleanup: after [WaitForMetricDelta],
    [WaitForMetricBaseline], [WaitUntiltMetricHasValue],
    [GetMetricValueOrZero] and [GetMetricValue] the maps and the cleanups are
    what they were, so a later wait for the same key sees the same baseline. *)
Theorem metric_operations_keep_the_baselines
    (env : Env) (a : Awaitility.t) (family : string) (value : Float64.t)
    (labels : list string) :
  keepsStore (WaitForMetricDelta env a family value labels)
  /\ keepsStore (WaitForMetricBaseline env a family labels)
  /\ keepsStore (WaitUntiltMetricHasValue env a family value labels)
  /\ keepsStore (GetMetricValueOrZero env a family labels)
  /\ keepsStore (GetMetricValue env a family labels)
  /\ forall s key,
       mapaccess (heap (snd (WaitForMetricDelta env a family value labels s)))
         (Awaitility.baselineValues a) key
       = mapaccess (heap s) (Awaitility.baselineValues a) key.
Proof.
  assert (Hd : keepsStore (WaitForMetricDelta env a family value labels)).
  { unfold WaitForMetricDelta.
    apply keepsStore_bind; [unfold baselineKey; keeps_store|intros key].
    apply keepsStore_bind; [apply keepsStore_readBaseline|intros baseline].
    apply keepsStore_WaitUntiltMetricHasValue. }
  split; [exact Hd|]. split.
  { unfold WaitForMetricBaseline.
    apply keepsStore_bind; [unfold baselineKey; keeps_store|intros key].
    apply keepsStore_bind; [apply keepsStore_readBaseline|intros baseline].
    apply keepsStore_WaitUntiltMetricHasValue. }
  split; [apply keepsStore_WaitUntiltMetricHasValue|]. split.
  { unfold GetMetricValueOrZero, fetchMetricValue. keeps_store. }
  split.
  { unfold GetMetricValue, fetchMetricValue. keeps_store. }
  intros s key. destruct (Hd s) as [-> _]. reflexivity.
Qed.

(** ** Retry options *)

Lemma copy_eq a : copy a = a.
Proof. destruct a; reflexivity. Qed.

(** X12. Specialising twice is specialising once with the options of both
    calls in a row, and specialising with no option gives a waiter with the
    fields of the original. *)
Theorem WithRetryOptions_composes
    (a : Awaitility.t) (options options' : list RetryOption) :
  WithRetryOptions (WithRetryOptions a options) options'
  = WithRetryOptions a (options ++ options')
  /\ WithRetryOptions a [] = a.
Proof.
  unfold WithRetryOptions. rewrite !copy_eq, fold_left_app. split; reflexivity.
Qed.

Lemma fold_apply_retry_fields options : forall result,
  Awaitility.RetryInterval (fold_left (fun r o => apply o r) options result)
  = fold_left (fun d o => match o with RetryInterval d' => d' | TimeoutOption _ => d end)
      options (Awaitility.RetryInterval result)
  /\ Awaitility.Timeout (fold_left (fun r o => apply o r) options result)
     = fold_left (fun d o => match o with TimeoutOption d' => d' | RetryInterval _ => d end)
         options (Awaitility.Timeout result).
Proof.
  induction options as [|o options IH]; intros result; simpl; [auto|].
  destruct (IH (apply o result)) as [Hi Ht]. rewrite Hi, Ht.
  destruct o; simpl; auto.
Qed.

(** X13. Of the retry options of a call the last [RetryInterval] and the last
    [TimeoutOption] count, each for its own field, and a field without an
    option keeps the value of the original; a wait of the specialised waiter
    polls with these two values. *)
Theorem WithRetryOptions_last_option_counts
    (env : Env) (a : Awaitility.t) (options : list RetryOption) (name : string) :
  let interval :=
    fold_left (fun d o => match o with RetryInterval d' => d' | TimeoutOption _ => d end)
      options (Awaitility.RetryInterval a) in
  let timeout :=
    fold_left (fun d o => match o with TimeoutOption d' => d' | RetryInterval _ => d end)
      options (Awaitility.Timeout a) in
  Awaitility.RetryInterval (WithRetryOptions a options) = interval
  /\ Awaitility.Timeout (WithRetryOptions a options) = timeout
  /\ (forall d, Awaitility.Timeout (WithRetryOptions a (options ++ [TimeoutOption d])) = d
                /\ Awaitility.RetryInterval
                     (WithRetryOptions a (options ++ [TimeoutOption d])) = interval)
  /\ (forall d, Awaitility.RetryInterval
                  (WithRetryOptions a (options ++ [RetryInterval d])) = d
                /\ Awaitility.Timeout
                     (WithRetryOptions a (options ++ [RetryInterval d])) = timeout)
  /\ addsPoll (WaitForService env (WithRetryOptions a options) name)
              (interval, timeout).
Proof.
  intros interval timeout.
  assert (Hfields : forall opts,
            Awaitility.RetryInterval (WithRetryOptions a opts)
            = fold_left (fun d o => match o with
                                    | RetryInterval d' => d'
                                    | TimeoutOption _ => d
                                    end) opts (Awaitility.RetryInterval a)
            /\ Awaitility.Timeout (WithRetryOptions a opts)
               = fold_left (fun d o => match o with
                                       | TimeoutOption d' => d'
                                       | RetryInterval _ => d
                                       end) opts (Awaitility.Timeout a)).
  { intros opts. unfold WithRetryOptions. rewrite copy_eq.
    apply fold_apply_retry_fields. }
  destruct (Hfields options) as [Hi Ht].
  split; [exact Hi|]. split; [exact Ht|].
  split; [|split].
  - intros d. destruct (Hfields (options ++ [TimeoutOption d])%list) as [Hi' Ht'].
    rewrite Hi', Ht', !fold_left_app. split; reflexivity.
  - intros d. destruct (Hfields (options ++ [RetryInterval d])%list) as [Hi' Ht'].
    rewrite Hi', Ht', !fold_left_app. split; reflexivity.
  - unfold interval, timeout. rewrite <- Hi, <- Ht.
    apply addsPoll_WaitForService.
Qed.

(** ** Label criteria *)

(** X14. [UntilToolchainClusterHasLabels] matches a cluster exactly when
    every expected label is a label of the cluster, with the same value: the
    expected labels are a submap of the labels of the cluster.  No expected
    label matches every cluster. *)
Theorem UntilToolchainClusterHasLabels_submap
    (expected : gmap string string) (actual : ToolchainCluster.t) :
  (Match (UntilToolchainClusterHasLabels expected) actual = true
   <-> expected ⊆ ToolchainCluster.Labels actual)
  /\ Match (UntilToolchainClusterHasLabels ∅) actual = true.
Proof.
  split; [|reflexivity].
  unfold UntilToolchainClusterHasLabels. simpl.
  rewrite forallb_forall, map_subseteq_spec. split.
  - intros H k v Hkv.
    specialize (H (k, v)). simpl in H.
    assert (Hin : In (k, v) (map_to_list expected))
      by (apply list_elem_of_In, elem_of_map_to_list; exact Hkv).
    specialize (H Hin).
    destruct (ToolchainCluster.Labels actual !! k) as [v'|]; [|discriminate].
    apply String.eqb_eq in H. congruence.
  - intros H [k v] Hin. simpl.
    apply list_elem_of_In, elem_of_map_to_list in Hin.
    rewrite (H k v Hin). apply String.eqb_refl.
Qed.

(** ** Fetch errors of the metric waits *)

(** a condition that makes one request and never reports an error: the poll
    ends on success after at most [n + 1] requests or on the deadline after
    exactly [n + 1] *)
Lemma pollLoop_patient {V} (condition : V -> Test (V * (bool * option error))) :
  (forall v s, exists v' ok s1,
      condition v s = (Done (v', (ok, None)), s1) /\ clock s1 = S (clock s)) ->
  forall n v s, exists v' s',
    (pollLoop n condition v s = (Done (v', None), s')
     /\ (clock s < clock s' <= clock s + S n)%nat)
    \/ (pollLoop n condition v s = (Done (v', Some ErrWaitTimeout), s')
        /\ clock s' = (clock s + S n)%nat).
Proof.
  intros Hc n. induction n as [|n IH]; intros v s;
    destruct (Hc v s) as (v' & ok & s1 & Hrun & Hk);
    rewrite (pollLoop_step _ _ _ _ _ _ _ _ Hrun); destruct ok.
  - exists v', s1. left. split; [reflexivity|lia].
  - exists v', s1. right. split; [reflexivity|lia].
  - exists v', s1. left. split; [reflexivity|lia].
  - destruct (IH v' s1) as (v2 & s2 & [[Hr Hb]|[Hr Hb]]); exists v2, s2;
      [left|right]; (split; [exact Hr|lia]).
Qed.

Lemma Poll_patient {V} env interval timeout
    (condition : V -> Test (V * (bool * option error))) v s :
  (0 < interval)%Z ->
  (forall v s, exists v' ok s1,
      condition v s = (Done (v', (ok, None)), s1) /\ clock s1 = S (clock s)) ->
  exists v' s',
    (Poll env interval timeout condition v s = (Done (v', None), s')
     /\ (clock s < clock s' <= clock s + S (ticks env interval timeout))%nat)
    \/ (Poll env interval timeout condition v s
        = (Done (v', Some ErrWaitTimeout), s')
        /\ clock s' = (clock s + S (ticks env interval timeout))%nat).
Proof.
  intros Hi Hc. unfold Poll, bind, recordPoll.
  assert (Hpos : (interval <=? 0)%Z = false) by lia. rewrite Hpos.
  match goal with |- context [pollLoop ?n _ _ ?s1] =>
    destruct (pollLoop_patient condition Hc n v s1) as (v' & s' & H)
  end.
  exists v', s'. exact H.
Qed.

(** X15. The metric waits swallow every error of the fetch: with a positive
    interval [WaitUntilMetricHasValueOrMore] and [WaitUntilMetricHasValueOrLess]
    return no error or the timeout error of the poll, never an error of the
    fetch, and [WaitUntiltMetricHasValue] ends normally or fails the test on
    the deadline.  Each makes one fetch per run: at most one more than the
    ticks before the deadline, and exactly that many when the deadline ends
    the wait. *)
Theorem metric_waits_swallow_fetch_errors
    (env : Env) (a : Awaitility.t) (family : string) (expectedValue : Float64.t)
    (labels : list string) (s : State)
    (Hinterval : (0 < Awaitility.RetryInterval a)%Z) :
  let n := ticks env (Awaitility.RetryInterval a) (Awaitility.Timeout a) in
  let orMore := WaitUntilMetricHasValueOrMore env a family expectedValue labels s in
  let orLess := WaitUntilMetricHasValueOrLess env a family expectedValue labels s in
  let exactly := WaitUntiltMetricHasValue env a family expectedValue labels s in
  match fst orMore with
  | Done None => (clock s < clock (snd orMore) <= clock s + S n)%nat
  | Done (Some err) =>
      err = ErrWaitTimeout /\ clock (snd orMore) = (clock s + S n)%nat
  | FailNow | Panic => False
  end
  /\ match fst orLess with
     | Done None => (clock s < clock (snd orLess) <= clock s + S n)%nat
     | Done (Some err) =>
         err = ErrWaitTimeout /\ clock (snd orLess) = (clock s + S n)%nat
     | FailNow | Panic => False
     end
  /\ match fst exactly with
     | Done _ => (clock s < clock (snd exactly) <= clock s + S n)%nat
     | FailNow => clock (snd exactly) = (clock s + S n)%nat
     | Panic => False
     end.
Proof.
  intros n orMore orLess exactly.
  assert (HorMore : forall v s0, exists v' ok s1,
            WaitUntilMetricHasValueOrMore_func1 env a family expectedValue labels
              v s0 = (Done (v', (ok, None)), s1) /\ clock s1 = S (clock s0)).
  { intros v s0. unfold WaitUntilMetricHasValueOrMore_func1, fetchMetricValue,
      bind, request, ret. simpl. eauto. }
  assert (HorLess : forall v s0, exists v' ok s1,
            WaitUntilMetricHasValueOrLess_func1 env a family expectedValue labels
              v s0 = (Done (v', (ok, None)), s1) /\ clock s1 = S (clock s0)).
  { intros v s0. unfold WaitUntilMetricHasValueOrLess_func1, fetchMetricValue,
      bind, request, ret. simpl. eauto. }
  assert (Hexactly : forall v s0, exists v' ok s1,
            WaitUntiltMetricHasValue_func1 env a family expectedValue labels
              v s0 = (Done (v', (ok, None)), s1) /\ clock s1 = S (clock s0)).
  { intros v s0. unfold WaitUntiltMetricHasValue_func1, fetchMetricValue,
      bind, request, ret. simpl. eauto. }
  split; [|split].
  - unfold orMore, WaitUntilMetricHasValueOrMore, bind.
    destruct (Poll_patient env _ (Awaitility.Timeout a) _ Float64.zero s
                Hinterval HorMore) as (v' & s' & [[-> Hb]|[-> Hb]]);
      simpl; auto.
  - unfold orLess, WaitUntilMetricHasValueOrLess, bind.
    destruct (Poll_patient env _ (Awaitility.Timeout a) _ Float64.zero s
                Hinterval HorLess) as (v' & s' & [[-> Hb]|[-> Hb]]);
      simpl; auto.
  - unfold exactly, WaitUntiltMetricHasValue, bind.
    destruct (Poll_patient env _ (Awaitility.Timeout a) _ Float64.zero s
                Hinterval Hexactly) as (v' & s' & [[-> Hb]|[-> Hb]]);
      simpl; auto.
Qed.

(** the metric counts the fetches: the wait for 3 or more ends with the fourth
    fetch, the wait for -1 or less at the deadline *)
Lemma metric_waits_swallow_fetch_errors_witness :
  (0 < Awaitility.RetryInterval exampleAwaitility)%Z
  /\ WaitUntilMetricHasValueOrMore exampleEnv exampleAwaitility "sandbox_users"
       (Float64.of_Z 3) [] exampleState
     = (Done None,
        {| clock := 4; polls := [(DefaultRetryInterval, DefaultTimeout)];
           heap := heap exampleState; cleanups := [] |})
  /\ match fst (WaitUntilMetricHasValueOrLess exampleEnv exampleAwaitility
                  "sandbox_users" (Float64.of_Z (-1)) [] exampleState) with
     | Done None =>
         (clock exampleState
          < clock (snd (WaitUntilMetricHasValueOrLess exampleEnv exampleAwaitility
                          "sandbox_users" (Float64.of_Z (-1)) [] exampleState))
          <= clock exampleState
             + S (ticks exampleEnv (Awaitility.RetryInterval exampleAwaitility)
                    (Awaitility.Timeout exampleAwaitility)))%nat
     | Done (Some err) =>
         err = ErrWaitTimeout
         /\ clock (snd (WaitUntilMetricHasValueOrLess exampleEnv exampleAwaitility
                          "sandbox_users" (Float64.of_Z (-1)) [] exampleState))
            = (clock exampleState
               + S (ticks exampleEnv (Awaitility.RetryInterval exampleAwaitility)
                      (Awaitility.Timeout exampleAwaitility)))%nat
     | FailNow | Panic => False
     end.
Proof.
  assert (Hinterval : (0 < Awaitility.RetryInterval exampleAwaitility)%Z)
    by reflexivity.
  split; [exact Hinterval|]. split; [vm_compute; reflexivity|].
  exact (proj1 (proj2 (metric_waits_swallow_fetch_errors exampleEnv
                         exampleAwaitility "sandbox_users" (Float64.of_Z (-1)) []
                         exampleState Hinterval))).
Defined.

(** ** Reading a metric once *)

(** X17. With an even number of label arguments [GetMetricValueOrZero] is
    [GetMetricValue] with the failure of the test replaced by the value 0:
    the two make the same request, return the same value when the fetch has
    no error, and where [GetMetricValue] fails the test the other returns
    0. *)
Theorem GetMetricValueOrZero_is_GetMetricValue_or_zero
    (env : Env) (a : Awaitility.t) (family : string) (labelAndValues : list string)
    (s : State) (Heven : oddLength labelAndValues = false) :
  snd (GetMetricValueOrZero env a family labelAndValues s)
  = snd (GetMetricValue env a family labelAndValues s)
  /\ match fst (GetMetricValue env a family labelAndValues s) with
     | Done value =>
         fst (GetMetricValueOrZero env a family labelAndValues s) = Done value
     | FailNow =>
         fst (GetMetricValueOrZero env a family labelAndValues s)
         = Done Float64.zero
     | Panic => False
     end.
Proof.
  unfold GetMetricValueOrZero, GetMetricValue, fetchMetricValue, bind, request.
  rewrite Heven. simpl.
  destruct (snd (metrics_GetMetricValue env _ _ _ _ _)); simpl;
    split; reflexivity.
Qed.

Lemma GetMetricValueOrZero_is_GetMetricValue_or_zero_witness :
  oddLength ["cluster_name"; "member-1"] = false
  /\ fst (GetMetricValueOrZero exampleEnv exampleAwaitility "sandbox_users"
            ["cluster_name"; "member-1"] exampleState)
     = Done Float64.zero.
Proof.
  assert (Heven : oddLength ["cluster_name"; "member-1"] = false) by reflexivity.
  split; [exact Heven|].
  exact (proj2 (GetMetricValueOrZero_is_GetMetricValue_or_zero exampleEnv
                  exampleAwaitility "sandbox_users" ["cluster_name"; "member-1"]
                  exampleState Heven)).
Defined.

(** ** The first run of a condition *)

Lemma Poll_first_run {V} env interval timeout
    (condition : V -> Test (V * (bool * option error))) v s v' ok err s' :
  (0 < interval)%Z ->
  condition v {| clock := clock s; polls := polls s ++ [(interval, timeout)];
                 heap := heap s; cleanups := cleanups s |}
  = (Done (v', (ok, err)), s') ->
  (ok = true \/ err <> None) ->
  Poll env interval timeout condition v s = (Done (v', err), s').
Proof.
  intros Hi Hrun Hend. unfold Poll, bind, recordPoll.
  assert (Hpos : (interval <=? 0)%Z = false) by lia. rewrite Hpos.
  rewrite (pollLoop_step _ _ _ _ _ _ _ _ Hrun).
  destruct err; [reflexivity|]. destruct ok; [reflexivity|].
  destruct Hend; congruence.
Qed.

(** X18. A nil condition skips the check of the conditions: the named wait
    returns the first cluster the fetch answers with, and the wait by type the
    first cluster of the first list that is not empty, whatever conditions
    that cluster has, after a single request and without an error. *)
Theorem nil_condition_skips_the_check
    (env : Env) (a : Awaitility.t) (s : State)
    (Hinterval : (0 < Awaitility.RetryInterval a)%Z) :
  (forall name c,
      Client.GetToolchainCluster (Awaitility.Client a) (clock s)
        (Awaitility.Namespace a) name = inl c ->
      fst (WaitForNamedToolchainClusterWithCondition env a name None s)
      = Done (c, None)
      /\ clock (snd (WaitForNamedToolchainClusterWithCondition env a name None s))
         = S (clock s))
  /\ (forall clusterType namespace cl rest,
        Client.ListToolchainClusters (Awaitility.Client a) (clock s)
          (Awaitility.Namespace a)
          [("namespace", namespace); ("type", clusterType)] = inl (cl :: rest) ->
        fst (WaitForToolchainClusterWithCondition env a clusterType namespace
               None s) = Done (cl, None)
        /\ clock (snd (WaitForToolchainClusterWithCondition env a clusterType
                         namespace None s)) = S (clock s)).
Proof.
  split.
  - intros name c Hget. unfold WaitForNamedToolchainClusterWithCondition.
    erewrite Poll_first_run; cycle 1.
    + exact Hinterval.
    + unfold WaitForNamedToolchainClusterWithCondition_func1, bind, request.
      simpl. rewrite Hget.
      destruct (ToolchainCluster.Status_Conditions c); reflexivity.
    + left; reflexivity.
    + split; reflexivity.
  - intros clusterType namespace cl rest Hlist.
    unfold WaitForToolchainClusterWithCondition.
    erewrite Poll_first_run; cycle 1.
    + exact Hinterval.
    + unfold WaitForToolchainClusterWithCondition_func1, GetToolchainCluster,
        bind, request. simpl. rewrite Hlist. simpl.
      destruct (ToolchainCluster.Status_Conditions cl); reflexivity.
    + left; reflexivity.
    + split; reflexivity.
Qed.

Lemma nil_condition_skips_the_check_witness :
  (0 < Awaitility.RetryInterval exampleAwaitility)%Z
  /\ fst (WaitForToolchainClusterWithCondition exampleEnv exampleAwaitility
            "member" "toolchain-member-operator" None exampleState)
     = Done (exampleCluster "member-1", None)
  /\ clock (snd (WaitForToolchainClusterWithCondition exampleEnv exampleAwaitility
                   "member" "toolchain-member-operator" None exampleState))
     = 1%nat.
Proof.
  assert (Hinterval : (0 < Awaitility.RetryInterval exampleAwaitility)%Z)
    by reflexivity.
  split; [exact Hinterval|].
  apply (proj2 (nil_condition_skips_the_check exampleEnv exampleAwaitility
                  exampleState Hinterval)
           "member" "toolchain-member-operator" (exampleCluster "member-1") []).
  reflexivity.
Defined.

(** X19. An error of the first fetch ends three of the ToolchainCluster
    operations at once, with that error, after the single request: the named
    wait returns the empty cluster (also when the error says that the cluster
    is not found), [WaitForToolchainCluster] and [UpdateToolchainCluster]
    return no cluster. *)
Theorem fetch_error_ends_the_cluster_waits
    (env : Env) (a : Awaitility.t) (s : State) (err : error)
    (Hinterval : (0 < Awaitility.RetryInterval a)%Z) :
  (forall name condition,
      Client.GetToolchainCluster (Awaitility.Client a) (clock s)
        (Awaitility.Namespace a) name = inr err ->
      fst (WaitForNamedToolchainClusterWithCondition env a name condition s)
      = Done (ToolchainCluster.empty, Some err)
      /\ clock (snd (WaitForNamedToolchainClusterWithCondition env a name
                       condition s)) = S (clock s))
  /\ (forall name modify,
        Client.GetToolchainCluster (Awaitility.Client a) (clock s)
          (Awaitility.Namespace a) name = inr err ->
        fst (UpdateToolchainCluster env a name modify s) = Done (None, Some err)
        /\ clock (snd (UpdateToolchainCluster env a name modify s)) = S (clock s))
  /\ (forall criteria,
        Client.ListToolchainClusters (Awaitility.Client a) (clock s)
          (Awaitility.Namespace a) [] = inr err ->
        fst (WaitForToolchainCluster env a criteria s) = Done (None, Some err)
        /\ clock (snd (WaitForToolchainCluster env a criteria s)) = S (clock s)).
Proof.
  split; [|split].
  - intros name condition Hget. unfold WaitForNamedToolchainClusterWithCondition.
    erewrite Poll_first_run; cycle 1.
    + exact Hinterval.
    + unfold WaitForNamedToolchainClusterWithCondition_func1, bind, request.
      simpl. rewrite Hget. reflexivity.
    + right; discriminate.
    + split; reflexivity.
  - intros name modify Hget. unfold UpdateToolchainCluster.
    erewrite Poll_first_run; cycle 1.
    + exact Hinterval.
    + unfold UpdateToolchainCluster_func1, bind, request.
      simpl. rewrite Hget. reflexivity.
    + right; discriminate.
    + split; reflexivity.
  - intros criteria Hlist. unfold WaitForToolchainCluster.
    erewrite Poll_first_run; cycle 1.
    + exact Hinterval.
    + unfold WaitForToolchainCluster_func1, bind, request.
      simpl. rewrite Hlist. reflexivity.
    + right; discriminate.
    + split; reflexivity.
Qed.

Lemma fetch_error_ends_the_cluster_waits_witness :
  (0 < Awaitility.RetryInterval absentAwaitility)%Z
  /\ fst (UpdateToolchainCluster exampleEnv absentAwaitility "member-1"
            (fun tc => tc) exampleState)
     = Done (None, Some (ErrNotFound "not found"))
  /\ clock (snd (UpdateToolchainCluster exampleEnv absentAwaitility "member-1"
                   (fun tc => tc) exampleState)) = 1%nat.
Proof.
  assert (Hinterval : (0 < Awaitility.RetryInterval absentAwaitility)%Z)
    by reflexivity.
  split; [exact Hinterval|].
  apply (proj1 (proj2 (fetch_error_ends_the_cluster_waits exampleEnv
                         absentAwaitility exampleState (ErrNotFound "not found")
                         Hinterval))).
  reflexivity.
Defined.
